(** * OddFury bot: match cache, odds filter, persistence store and payment
    confirmation, embedded from [match_service.py], [database_service.py]
    and [payment_service.py], with the handlers of [main.py] that use
    them.

    Conventions of the embedding.
    - A value decoded from JSON (what [resp.json()] hands back) is a
      [pyval]; a Python [dict] keeps its insertion order, so it is an
      association list.
    - Python floats are modelled by rationals ([Q]); the non-finite floats
      are outside the model. An [int] becomes a float as [float()] makes
      it: rounded to the nearest double, [OverflowError] beyond the
      range.
    - A [datetime] is a number of microseconds ([Z]), the resolution of
      [datetime.utcnow()]; a [timedelta] likewise.
    - Code that can raise lives in the [result] monad; [try]/[except
      Exception] is [try_except].
    - What a method reads from its environment (the clock, the HTTP
      exchange, a fresh uuid) is an extra argument. *)

From Stdlib Require Import ZArith QArith Qround Qabs Lia.
From stdpp Require Import base option list strings pretty.

Local Open Scope string_scope.
Local Open Scope list_scope.
Local Open Scope Z_scope.

(** ** Python values, exceptions and the builtins the services call *)

Module Py.

(** [PNum] stands for both [int] and [float]. The keys of a [PDict] are
    distinct in Python; no definition below relies on it. *)
#[warnings="-register-all"]
Inductive pyval : Type :=
| PNone
| PBool (b : bool)
| PNum (q : Q)
| PStr (s : string)
| PList (items : list pyval)
| PDict (kvs : list (string * pyval)).

(** The exception classes that occur; all derive from [Exception]. *)
Inductive exn : Type :=
| TypeError | ValueError | AttributeError | KeyError | NameError
| IndexError | OverflowError | IntegrityError | ClientError | JSONDecodeError.

Inductive result (A : Type) : Type :=
| Ok (a : A)
| Raise (e : exn).
Arguments Ok {A} a.
Arguments Raise {A} e.

#[global] Instance result_ret : MRet result := fun _ a => Ok a.
#[global] Instance result_bind : MBind result := fun _ _ f m =>
  match m with Ok a => f a | Raise e => Raise e end.

#[global] Instance result_fmap : FMap result := fun _ _ f m =>
  match m with Ok a => Ok (f a) | Raise e => Raise e end.

(** [try: body except Exception as e: handler e] *)
Definition try_except {A} (body : result A) (handler : exn -> result A) : result A :=
  match body with Ok a => Ok a | Raise e => handler e end.

(** Builtins whose result depends on Python's number formatting and
    parsing: [str(v)] on a value that is not a string, and [float(s)] on
    a string ([None] stands for [ValueError]). *)
Class Builtins : Type := {
  py_repr : pyval -> string;
  float_of_str : string -> option Q
}.

(** Truth value of an object, as [if v:] and [not v] test it. *)
Definition truthy (v : pyval) : bool :=
  match v with
  | PNone => false
  | PBool b => b
  | PNum q => negb (Qeq_bool q 0)
  | PStr s => negb (String.eqb s "")
  | PList items => match items with [] => false | _ => true end
  | PDict kvs => match kvs with [] => false | _ => true end
  end.

(** [d[key]] on the association list of a dict. *)
Fixpoint dict_lookup (key : string) (kvs : list (string * pyval)) : option pyval :=
  match kvs with
  | [] => None
  | (k, v) :: rest => if String.eqb k key then Some v else dict_lookup key rest
  end.

(** [v.get(key, default)]: only a dict has the method. *)
Definition py_get (v : pyval) (key : string) (default : pyval) : result pyval :=
  match v with
  | PDict kvs => Ok (match dict_lookup key kvs with Some x => x | None => default end)
  | _ => Raise AttributeError
  end.

(** [float(n)] for an [int]: below [2^53] in size the value itself,
    above it the nearest number with 53 significant bits, a tie going to
    the even one. *)
Definition two_53 : Z := Eval cbv in 2 ^ 53.
Definition two_1024 : Z := Eval cbv in 2 ^ 1024.

Definition nearest_double (n : Z) : Z :=
  let a := Z.abs n in
  if a <? two_53 then n
  else
    let e := Z.log2 a - 52 in
    let m := a / 2 ^ e in
    let r := a mod 2 ^ e in
    let half := 2 ^ (e - 1) in
    let m' := if (half <? r) || ((r =? half) && Z.odd m) then m + 1 else m in
    Z.sgn n * (m' * 2 ^ e).

(** An [int] whose nearest double would be [2^1024] or more has no
    float: [OverflowError]. *)
Definition float_of_int (n : Z) : result Q :=
  let d := nearest_double n in
  if two_1024 <=? Z.abs d then Raise OverflowError else Ok (inject_Z d).

(** The whole number a rational is, if it is one. *)
Definition whole (q : Q) : option Z :=
  if Qnum q mod Zpos (Qden q) =? 0 then Some (Qnum q / Zpos (Qden q)) else None.

Section WithBuiltins.
Context `{Builtins}.

(** [float(v)]. A number that is not whole is a float already. A whole
    number is an [int] or a float with that value; a float is its own
    nearest double and lies within the range, so both convert as the
    [int] does. *)
Definition py_float (v : pyval) : result Q :=
  match v with
  | PNum q => match whole q with
              | Some n => float_of_int n
              | None => Ok q
              end
  | PBool b => Ok (if b then 1%Q else 0%Q)
  | PStr s => match float_of_str s with Some q => Ok q | None => Raise ValueError end
  | PNone | PList _ | PDict _ => Raise TypeError
  end.

(** [str(v)] *)
Definition py_str (v : pyval) : string :=
  match v with
  | PStr s => s
  | _ => py_repr v
  end.

End WithBuiltins.

(** The characters of a string, each as a one-character string. *)
Fixpoint chars (s : string) : list pyval :=
  match s with
  | EmptyString => []
  | String c rest => PStr (String c EmptyString) :: chars rest
  end.

(** What [for x in v] walks through: the items of a list, the keys of a
    dict, the characters of a string; nothing else iterates. *)
Definition py_iter (v : pyval) : result (list pyval) :=
  match v with
  | PList items => Ok items
  | PDict kvs => Ok (map (fun kv => PStr (fst kv)) kvs)
  | PStr s => Ok (chars s)
  | PNone | PBool _ | PNum _ => Raise TypeError
  end.

(** [needle in hay] on two strings: substring search. *)
Fixpoint starts_with (needle hay : string) : bool :=
  match needle, hay with
  | EmptyString, _ => true
  | String _ _, EmptyString => false
  | String a needle', String b hay' => Ascii.eqb a b && starts_with needle' hay'
  end.

Fixpoint str_contains (needle hay : string) : bool :=
  starts_with needle hay ||
  match hay with
  | EmptyString => false
  | String _ hay' => str_contains needle hay'
  end.

(** [key in v] for a string [key]. *)
Definition py_contains (key : string) (v : pyval) : result bool :=
  match v with
  | PDict kvs => Ok (match dict_lookup key kvs with Some _ => true | None => false end)
  | PList items =>
      Ok (existsb (fun x => match x with PStr s => String.eqb s key | _ => false end) items)
  | PStr s => Ok (str_contains key s)
  | PNone | PBool _ | PNum _ => Raise TypeError
  end.

(** [v[key]] for a string [key]. *)
Definition py_getitem (v : pyval) (key : string) : result pyval :=
  match v with
  | PDict kvs => match dict_lookup key kvs with Some x => Ok x | None => Raise KeyError end
  | _ => Raise TypeError
  end.

(** [list(v.values())] *)
Definition py_values (v : pyval) : result (list pyval) :=
  match v with
  | PDict kvs => Ok (map snd kvs)
  | _ => Raise AttributeError
  end.

End Py.
Import Py.

(** ** The HTTP exchange, as the two clients see it *)

(** [aiohttp]'s [session.get] either raises (connection error, timeout)
    or yields a response with a status; [resp.json()] then decodes the
    body or raises ([json = None]). *)
Inductive http_outcome : Type :=
| NetworkError
| Response (status : Z) (json : option pyval).

(** [if not self.api_key]: the key is unset or the empty string. *)
Definition key_missing (api_key : option string) : bool :=
  match api_key with
  | None => true
  | Some k => String.eqb k ""
  end.

(** Microseconds in [s] seconds. *)
Definition seconds (s : Z) : Z := s * 1000000.

(** ** match_service.py *)

Module FootballApiClient.

Record t : Type := {
  api_key : option string;    (* os.getenv("THE_ODDS_API_KEY") *)
  base_url : string
}.

Definition fetch_matches (self : t) (net : http_outcome) : result pyval :=
  if key_missing (api_key self) then Ok (PList [])
  else
    try_except
      (match net with
       | NetworkError => Raise ClientError
       | Response status json =>
           if negb (status =? 200) then Ok (PList [])
           else match json with
                | Some data => Ok data
                | None => Raise JSONDecodeError
                end
       end)
      (fun _ => Ok (PList [])).

End FootballApiClient.

Module MatchService.

Record t : Type := {
  api_client : FootballApiClient.t;
  cache : pyval;
  last_update : option Z;
  cache_ttl : Z               (* seconds *)
}.

(** [__init__] *)
Definition init (client : FootballApiClient.t) (ttl : Z) : t :=
  {| api_client := client; cache := PList []; last_update := None; cache_ttl := ttl |}.

(** What one call of [fetch_matches] did: the value it returned, the
    service afterwards, and what the client answered when it was asked
    ([None]: the client was not called). *)
Record fetched : Type := {
  returned : pyval;
  after : t;
  from_client : option pyval
}.

(** [(now - self.last_update).total_seconds() < self.cache_ttl]: the
    difference is a whole number of microseconds and the limit a whole
    number of seconds. *)
Definition fresh (self : t) (now : Z) : bool :=
  match last_update self with
  | Some lu => now - lu <? seconds (cache_ttl self)
  | None => false
  end.

Definition fetch_matches (self : t) (now : Z) (net : http_outcome) : result fetched :=
  if fresh self now then
    Ok {| returned := cache self; after := self; from_client := None |}
  else
    matches ← FootballApiClient.fetch_matches (api_client self) net;
    if truthy matches then
      Ok {| returned := matches;
            after := {| api_client := api_client self; cache := matches;
                        last_update := Some now; cache_ttl := cache_ttl self |};
            from_client := Some matches |}
    else
      Ok {| returned := cache self; after := self; from_client := Some matches |}.

Section Filter.
Context `{Builtins}.

(** The test of the loop body; [Raise] is what the [except] of the loop
    catches. *)
Definition odds_in_range (min_odds max_odds : Q) (m : pyval) : result bool :=
  v1 ← py_get m "odds_1" (PNum 0);
  odds_1 ← py_float v1;
  v2 ← py_get m "odds_2" (PNum 0);
  odds_2 ← py_float v2;
  Ok (Qle_bool min_odds odds_1 && Qle_bool odds_1 max_odds
      || Qle_bool min_odds odds_2 && Qle_bool odds_2 max_odds).

(** The matches the loop keeps: those whose test evaluates to [True]
    without raising. *)
Definition kept (min_odds max_odds : Q) (m : pyval) : bool :=
  match odds_in_range min_odds max_odds m with
  | Ok b => b
  | Raise _ => false
  end.

(** One turn of [for match in matches]: append, or leave [result] as it
    is (test false, or exception logged). *)
Definition filter_step (min_odds max_odds : Q) (result : list pyval) (m : pyval)
  : list pyval :=
  match odds_in_range min_odds max_odds m with
  | Ok true => result ++ [m]
  | Ok false => result
  | Raise _ => result
  end.

(** Lines 88-97: the loop over the fetched matches. *)
Definition filter_matches (min_odds max_odds : Q) (matches : list pyval) : list pyval :=
  fold_left (filter_step min_odds max_odds) matches [].

Definition check_for_matches_with_target_odds
  (self : t) (now : Z) (net : http_outcome) (min_odds max_odds : Q)
  : result (list pyval * t) :=
  r ← fetch_matches self now net;
  matches ← py_iter (returned r);
  Ok (filter_matches min_odds max_odds matches, after r).

End Filter.

(** The defaults of the signature: [min_odds=1.5, max_odds=5.0]. *)
Definition default_min_odds : Q := 3 # 2.
Definition default_max_odds : Q := 5 # 1.

(** A run of the service: [fetch_matches] called at each (clock, HTTP
    outcome) of [calls], oldest first; the log lists, with its clock,
    what each call did. *)
Fixpoint run (self : t) (calls : list (Z * http_outcome))
  : result (t * list (Z * fetched)) :=
  match calls with
  | [] => Ok (self, [])
  | (now, net) :: rest =>
      r ← fetch_matches self now net;
      '(final, log) ← run (after r) rest;
      Ok (final, (now, r) :: log)
  end.

(** A call succeeded when the client was asked and answered with a
    non-empty value. *)
Definition succeeded (entry : Z * fetched) : option (Z * pyval) :=
  match from_client (snd entry) with
  | Some v => if truthy v then Some (fst entry, v) else None
  | None => None
  end.

(** The clock and the answer of the latest successful call of a log. *)
Fixpoint most_recent_success (log : list (Z * fetched)) : option (Z * pyval) :=
  match log with
  | [] => None
  | entry :: later =>
      match most_recent_success later with
      | Some s => Some s
      | None => succeeded entry
      end
  end.

End MatchService.

(** ** database_service.py *)

Module User.
Record t : Type := {
  telegram_id : Z;
  username : option string;
  first_name : option string;
  last_name : option string;
  registration_date : Z;
  trial_messages_left : Z
}.
End User.

Module Subscription.
Record t : Type := {
  user_id : Z;
  start_date : Z;
  end_date : Z;
  subscription_type : string;
  price_paid : Q;
  payment_id : string
}.
End Subscription.

Module PaymentLink.
Record t : Type := {
  telegram_user_id : Z;
  unique_id : string;
  subscription_type : string;
  amount : Q;
  created_at : Z;
  paid : bool
}.
End PaymentLink.

Module Match.
Record t : Type := {
  home_team : string;
  away_team : string;
  competition : string;
  match_time : Z;
  odds_1 : Q;
  odds_x : Q;
  odds_2 : Q;
  notification_sent : bool;
  match_url : option string
}.
End Match.

Module DatabaseService.

(** The tables. No statement of the program deletes a row, so the
    integer primary key of a row is its position, counted from 1. *)
Record Store : Type := {
  users : list User.t;
  subscriptions : list Subscription.t;
  payment_links : list PaymentLink.t;
  matches : list Match.t
}.

Definition empty : Store :=
  {| users := []; subscriptions := []; payment_links := []; matches := [] |}.

Definition row_id (position : nat) : Z := Z.of_nat position + 1.

(** [session.get(Table, id)] *)
Definition by_id {A} (table : list A) (id : Z) : option A :=
  if 1 <=? id then table !! Z.to_nat (id - 1) else None.

(** [select(Table).where(P)] followed by [.scalars().first()]: the first
    row in key order that satisfies [P], with its primary key. *)
Definition first_row {A} (P : A → Prop) `{!∀ x, Decision (P x)} (table : list A)
  : option (Z * A) :=
  prod_map row_id id <$> list_find P table.

Definition set_users (st : Store) (us : list User.t) : Store :=
  {| users := us; subscriptions := subscriptions st;
     payment_links := payment_links st; matches := matches st |}.

Definition set_subscriptions (st : Store) (ss : list Subscription.t) : Store :=
  {| users := users st; subscriptions := ss;
     payment_links := payment_links st; matches := matches st |}.

Definition set_payment_links (st : Store) (ls : list PaymentLink.t) : Store :=
  {| users := users st; subscriptions := subscriptions st;
     payment_links := ls; matches := matches st |}.

Definition get_user_by_telegram_id (st : Store) (telegram_id : Z) : option (Z * User.t) :=
  first_row (λ u, User.telegram_id u = telegram_id) (users st).

Definition get_or_create_user (st : Store) (telegram_id : Z)
    (username first_name last_name : option string) (now : Z)
  : (Z * User.t) * Store :=
  match get_user_by_telegram_id st telegram_id with
  | Some user => (user, st)
  | None =>
      let user := {| User.telegram_id := telegram_id;
                     User.username := username;
                     User.first_name := first_name;
                     User.last_name := last_name;
                     User.registration_date := now;
                     User.trial_messages_left := 3 |} in
      ((row_id (length (users st)), user), set_users st (users st ++ [user]))
  end.

Definition has_active_subscription (st : Store) (user_id now : Z) : bool :=
  bool_decide (is_Some (first_row
    (λ s, Subscription.user_id s = user_id ∧ now ≤ Subscription.end_date s)
    (subscriptions st))).

Definition with_trial (u : User.t) (n : Z) : User.t :=
  {| User.telegram_id := User.telegram_id u;
     User.username := User.username u;
     User.first_name := User.first_name u;
     User.last_name := User.last_name u;
     User.registration_date := User.registration_date u;
     User.trial_messages_left := n |}.

Definition decrement_trial_message (st : Store) (user_id : Z) : Z * Store :=
  match by_id (users st) user_id with
  | Some user =>
      if 0 <? User.trial_messages_left user then
        let user' := with_trial user (User.trial_messages_left user - 1) in
        (User.trial_messages_left user',
         set_users st (<[Z.to_nat (user_id - 1) := user']> (users st)))
      else (0, st)
  | None => (0, st)
  end.

(** [uuid]: the ten characters of [uuid.uuid4().hex[:10]]. The column is
    [unique=True]: inserting a second row with the same value fails. *)
Definition create_payment_link (st : Store) (telegram_user_id : Z)
    (subscription_type : string) (amount : Q) (uuid : string) (now : Z)
  : result (PaymentLink.t * Store) :=
  let payment_link := {| PaymentLink.telegram_user_id := telegram_user_id;
                         PaymentLink.unique_id := uuid;
                         PaymentLink.subscription_type := subscription_type;
                         PaymentLink.amount := amount;
                         PaymentLink.created_at := now;
                         PaymentLink.paid := false |} in
  match first_row (λ l, PaymentLink.unique_id l = uuid) (payment_links st) with
  | Some _ => Raise IntegrityError
  | None => Ok (payment_link, set_payment_links st (payment_links st ++ [payment_link]))
  end.

Definition get_payment_link (st : Store) (unique_id : string) : option (Z * PaymentLink.t) :=
  first_row (λ l, PaymentLink.unique_id l = unique_id) (payment_links st).

Definition with_paid (l : PaymentLink.t) : PaymentLink.t :=
  {| PaymentLink.telegram_user_id := PaymentLink.telegram_user_id l;
     PaymentLink.unique_id := PaymentLink.unique_id l;
     PaymentLink.subscription_type := PaymentLink.subscription_type l;
     PaymentLink.amount := PaymentLink.amount l;
     PaymentLink.created_at := PaymentLink.created_at l;
     PaymentLink.paid := true |}.

Definition mark_payment_as_paid (st : Store) (unique_id : string)
  : option PaymentLink.t * Store :=
  match first_row (λ l, PaymentLink.unique_id l = unique_id) (payment_links st) with
  | Some (id, payment_link) =>
      if negb (PaymentLink.paid payment_link) then
        let payment_link' := with_paid payment_link in
        (Some payment_link',
         set_payment_links st (<[Z.to_nat (id - 1) := payment_link']> (payment_links st)))
      else (None, st)
  | None => (None, st)
  end.

Definition weeks (n : Z) : Z := seconds (n * 7 * 86400).
Definition days (n : Z) : Z := seconds (n * 86400).
Definition minutes (n : Z) : Z := seconds (n * 60).

Definition create_subscription (st : Store) (user_id : Z) (subscription_type : string)
    (amount : Q) (payment_id : string) (now : Z)
  : Subscription.t * Store :=
  let end_date :=
    if String.eqb subscription_type "week" then now + weeks 1
    else if String.eqb subscription_type "two_weeks" then now + weeks 2
    else if String.eqb subscription_type "month" then now + days 31
    else now + weeks 1 in
  let subscription := {| Subscription.user_id := user_id;
                         Subscription.start_date := now;
                         Subscription.end_date := end_date;
                         Subscription.subscription_type := subscription_type;
                         Subscription.price_paid := amount;
                         Subscription.payment_id := payment_id |} in
  (subscription, set_subscriptions st (subscriptions st ++ [subscription])).

(** The methods below are declared [@staticmethod] with no [self]
    parameter, and their first statement is
    [async with self.async_session() as session]. [self] is neither a
    parameter nor a global of the module, so reading it raises
    [NameError] before a session is opened. *)
Definition unbound_self : result unit := Raise NameError.

Definition with_end_date (s : Subscription.t) (d : Z) : Subscription.t :=
  {| Subscription.user_id := Subscription.user_id s;
     Subscription.start_date := Subscription.start_date s;
     Subscription.end_date := d;
     Subscription.subscription_type := Subscription.subscription_type s;
     Subscription.price_paid := Subscription.price_paid s;
     Subscription.payment_id := Subscription.payment_id s |}.

(** The statements of [revoke_subscription] below its first line. *)
Definition revoke_subscription_body (st : Store) (username : string) (now : Z)
  : option Z * Store :=
  match first_row (λ u, User.username u = Some username) (users st) with
  | None => (None, st)
  | Some (uid, user) =>
      match first_row
              (λ s, Subscription.user_id s = uid ∧ now ≤ Subscription.end_date s)
              (subscriptions st) with
      | None => (None, st)
      | Some (sid, subscription) =>
          (Some (User.telegram_id user),
           set_subscriptions st
             (<[Z.to_nat (sid - 1) := with_end_date subscription (now - minutes 1)]>
                (subscriptions st)))
      end
  end.

Definition revoke_subscription (st : Store) (username : string) (now : Z)
  : result (option Z * Store) :=
  _ ← unbound_self;
  Ok (revoke_subscription_body st username now).

(** SQL [round(x, digits)]: to the nearest multiple of [10^-digits],
    halves away from zero. *)
Definition sql_round (x : Q) (digits : Z) : Q :=
  let scale := 10 ^ digits in
  let magnitude := Qfloor (Qabs x * inject_Z scale + (1 # 2)) in
  (if Qle_bool 0 x then magnitude else - magnitude) # Z.to_pos scale.

(** The [where] clause of [get_matches_with_target_odds]. *)
Definition target_odds (now : Z) (m : Match.t) : bool :=
  Qeq_bool (sql_round (Match.odds_1 m) 2) (425 # 100)
  && Qeq_bool (sql_round (Match.odds_2 m) 3) (1225 # 1000)
  && negb (Match.notification_sent m)
  && (now <=? Match.match_time m)
  ||
  Qeq_bool (sql_round (Match.odds_1 m) 2) (422 # 100)
  && Qeq_bool (sql_round (Match.odds_2 m) 3) (1225 # 1000)
  && negb (Match.notification_sent m)
  && (now <=? Match.match_time m).

Definition get_matches_with_target_odds (st : Store) (now : Z) : result (list Match.t) :=
  _ ← unbound_self;
  Ok (List.filter (target_odds now) (matches st)).

(** The calls a client of the store can make, and a history of them. A
    call that raises commits nothing. *)
Inductive op : Type :=
| GetOrCreateUser (telegram_id : Z) (username first_name last_name : option string) (now : Z)
| DecrementTrialMessage (user_id : Z)
| CreatePaymentLink (telegram_user_id : Z) (subscription_type : string) (amount : Q)
    (uuid : string) (now : Z)
| MarkPaymentAsPaid (unique_id : string)
| CreateSubscription (user_id : Z) (subscription_type : string) (amount : Q)
    (payment_id : string) (now : Z)
| RevokeSubscription (username : string) (now : Z)
| GetMatchesWithTargetOdds (now : Z).

Definition commit {A} (st : Store) (r : result (A * Store)) : Store :=
  match r with
  | Ok (_, st') => st'
  | Raise _ => st
  end.

Definition step (st : Store) (o : op) : Store :=
  match o with
  | GetOrCreateUser telegram_id username first_name last_name now =>
      snd (get_or_create_user st telegram_id username first_name last_name now)
  | DecrementTrialMessage user_id => snd (decrement_trial_message st user_id)
  | CreatePaymentLink telegram_user_id subscription_type amount uuid now =>
      commit st (create_payment_link st telegram_user_id subscription_type amount uuid now)
  | MarkPaymentAsPaid unique_id => snd (mark_payment_as_paid st unique_id)
  | CreateSubscription user_id subscription_type amount payment_id now =>
      snd (create_subscription st user_id subscription_type amount payment_id now)
  | RevokeSubscription username now => commit st (revoke_subscription st username now)
  | GetMatchesWithTargetOdds now =>
      commit st (ms ← get_matches_with_target_odds st now; Ok (ms, st))
  end.

Definition run_ops (ops : list op) : Store := fold_left step ops empty.

(** The link the store's [create_payment_link] builds. *)
Definition new_link (telegram_user_id : Z) (subscription_type : string) (amount : Q)
    (uuid : string) (now : Z) : PaymentLink.t :=
  {| PaymentLink.telegram_user_id := telegram_user_id;
     PaymentLink.unique_id := uuid;
     PaymentLink.subscription_type := subscription_type;
     PaymentLink.amount := amount;
     PaymentLink.created_at := now;
     PaymentLink.paid := false |}.

(** No user has a negative number of trial messages. *)
Definition trial_not_negative (st : Store) : Prop :=
  Forall (λ u, 0 ≤ User.trial_messages_left u) (users st).

End DatabaseService.

(** ** payment_service.py *)

Module DonationAlertsClient.

Record t : Type := {
  api_key : option string     (* os.getenv("DONATION_ALERTS_API_KEY") *)
}.

(** [for key in ("data", "donations", "results")] *)
Definition known_keys : list string := ["data"; "donations"; "results"].

(** The loop over the known keys: [Some v] when it returns [data[key]],
    [None] when it runs to its end. *)
Fixpoint scan_keys (keys : list string) (data : pyval) : result (option pyval) :=
  match keys with
  | [] => Ok None
  | key :: rest =>
      present ← py_contains key data;
      if present : bool then v ← py_getitem data key; Ok (Some v)
      else scan_keys rest data
  end.

(** [list(data.values())[0] if data else []] *)
Definition first_value (data : pyval) : result pyval :=
  if truthy data then
    values ← py_values data;
    match values with
    | v :: _ => Ok v
    | [] => Raise IndexError
    end
  else Ok (PList []).

Definition get_recent_donations (self : t) (net : http_outcome) : result pyval :=
  if key_missing (api_key self) then Ok (PList [])
  else
    try_except
      (match net with
       | NetworkError => Raise ClientError
       | Response status json =>
           if negb (status =? 200) then Ok (PList [])
           else
             data ← match json with
                    | Some data => Ok data
                    | None => Raise JSONDecodeError
                    end;
             hit ← scan_keys known_keys data;
             match hit with
             | Some donations => Ok donations
             | None => first_value data
             end
       end)
      (fun _ => Ok (PList [])).

End DonationAlertsClient.

(** The dict [PaymentService.create_payment_link] returns. *)
Module PaymentInfo.
Record t : Type := {
  unique_id : string;
  payment_url : string;
  amount : Z;
  subscription_type : string;
  discount : Z
}.
End PaymentInfo.

Module PaymentService.

Record t : Type := {
  donation_alerts : DonationAlertsClient.t;
  base_url : string;
  db_service : bool           (* whether [set_db_service] has run *)
}.

Definition get_subscription_price (subscription_type : string) : Z :=
  if String.eqb subscription_type "week" then 650
  else if String.eqb subscription_type "two_weeks" then 1300
  else if String.eqb subscription_type "month" then 2500
  else 0.

Inductive failure : Type :=
| PaymentLinkNotFound        (* "Payment link not found" *)
| PaymentAlreadyProcessed    (* "Payment already processed" *)
| DonationNotFound           (* the "payment not found, check link and sum" text *)
| FailedToProcess            (* "Failed to process payment" *)
| UserNotFound.              (* "User not found" *)

(** The dict [check_payment] returns. *)
Inductive outcome : Type :=
| Failure (message : failure)
| Success (user_id : Z) (subscription_type : string) (end_date : Z).

(** [Cls.method(args)] where [method] is an ordinary method taking
    [self]: looked up on the class it is a plain function, the first
    argument lands in [self] and the last parameter gets none, so the
    call raises [TypeError] before any coroutine exists. [intended] is
    what the method would have returned on the instance. *)
Definition called_on_class {A} (intended : A) : result A := Raise TypeError.

Section WithBuiltins.
Context `{Builtins}.

(** The condition of the [if] inside the loop. [and] evaluates its
    second operand only when the first is true. *)
Definition donation_matches (payment_link : PaymentLink.t) (donation : pyval) : result bool :=
  message ← py_get donation "message" (PStr "");
  if str_contains (PaymentLink.unique_id payment_link) (py_str message) then
    v ← py_get donation "amount" (PNum 0);
    amount ← py_float v;
    Ok (Qle_bool (PaymentLink.amount payment_link) amount)
  else Ok false.

(** The matching rule as the specification words it: the donation's
    message contains the link's id as a substring, and the donation's
    amount is at least the link's. *)
Definition is_substring (needle hay : string) : Prop :=
  ∃ before after, hay = before +:+ needle +:+ after.

Definition meets_link (payment_link : PaymentLink.t) (donation : pyval) : Prop :=
  ∃ message v amount,
    py_get donation "message" (PStr "") = Ok message
    ∧ is_substring (PaymentLink.unique_id payment_link) (py_str message)
    ∧ py_get donation "amount" (PNum 0) = Ok v
    ∧ py_float v = Ok amount
    ∧ (PaymentLink.amount payment_link <= amount)%Q.

(** [for donation in donations], leaving at the first match; an
    exception in the body is logged and the loop goes on. *)
Fixpoint find_donation (payment_link : PaymentLink.t) (donations : list pyval)
  : option pyval :=
  match donations with
  | [] => None
  | donation :: rest =>
      match donation_matches payment_link donation with
      | Ok true => Some donation
      | Ok false | Raise _ => find_donation payment_link rest
      end
  end.

Definition check_payment (self : t) (st : DatabaseService.Store)
    (unique_id : string) (net : http_outcome) (now : Z)
  : result (outcome * DatabaseService.Store) :=
  if negb (db_service self) then Raise AttributeError
  else
    match DatabaseService.get_payment_link st unique_id with
    | None => Ok (Failure PaymentLinkNotFound, st)
    | Some (_, payment_link) =>
        if PaymentLink.paid payment_link then Ok (Failure PaymentAlreadyProcessed, st)
        else
          donations ← DonationAlertsClient.get_recent_donations (donation_alerts self) net;
          items ← py_iter donations;
          let found := find_donation payment_link items in
          if negb (from_option truthy false found) then Ok (Failure DonationNotFound, st)
          else
            '(updated_link, st) ←
              called_on_class (DatabaseService.mark_payment_as_paid st unique_id);
            match updated_link with
            | None => Ok (Failure FailedToProcess, st)
            | Some _ =>
                user ← called_on_class
                         (DatabaseService.get_user_by_telegram_id st
                            (PaymentLink.telegram_user_id payment_link));
                match user with
                | None => Ok (Failure UserNotFound, st)
                | Some (user_id, user) =>
                    '(subscription, st) ←
                      called_on_class
                        (DatabaseService.create_subscription st user_id
                           (PaymentLink.subscription_type payment_link)
                           (PaymentLink.amount payment_link) unique_id now);
                    Ok (Success (User.telegram_id user)
                          (Subscription.subscription_type subscription)
                          (Subscription.end_date subscription), st)
                end
            end
    end.

End WithBuiltins.

Definition get_subscription_discount (subscription_type : string) : Z :=
  if String.eqb subscription_type "week" then 0
  else if String.eqb subscription_type "two_weeks" then 300
  else if String.eqb subscription_type "month" then 700
  else 0.

(** The three tariffs the bot sells. *)
Definition tariff (subscription_type : string) : Prop :=
  subscription_type = "week" ∨ subscription_type = "two_weeks"
  ∨ subscription_type = "month".

(** What [create_payment_link] does: it returns [None], it returns the
    dict (the store then holds the link), it raises
    [Exception("db_service is not set in PaymentService")], or the
    store's insert raises. *)
Inductive link_outcome : Type :=
| NoLink
| LinkInfo (info : PaymentInfo.t) (st : DatabaseService.Store)
| NotConfigured
| StoreRaised (e : exn).

(** [uuid] and [now] are what the store's [create_payment_link] draws
    and reads. The price is an [int]; the f-string prints it in
    decimal. *)
Definition create_payment_link (self : t) (st : DatabaseService.Store)
    (telegram_user_id : Z) (subscription_type : string) (uuid : string) (now : Z)
  : link_outcome :=
  let price := get_subscription_price subscription_type in
  if price =? 0 then NoLink
  else if negb (db_service self) then NotConfigured
  else
    match DatabaseService.create_payment_link st telegram_user_id subscription_type
            (inject_Z price) uuid now with
    | Raise e => StoreRaised e
    | Ok (payment_link, st') =>
        let full_url :=
          base_url self +:+ "?message=" +:+ PaymentLink.unique_id payment_link
            +:+ "&amount=" +:+ pretty price in
        LinkInfo {| PaymentInfo.unique_id := PaymentLink.unique_id payment_link;
                    PaymentInfo.payment_url := full_url;
                    PaymentInfo.amount := price;
                    PaymentInfo.subscription_type := subscription_type;
                    PaymentInfo.discount := get_subscription_discount subscription_type |}
                 st'
    end.

End PaymentService.

(** ** main.py *)

Module Bot.
Import DatabaseService.

(** [user_id] is the Telegram id of the caller. *)
Definition is_user_subscribed (st : Store) (user_id now : Z) : bool :=
  match get_user_by_telegram_id st user_id with
  | None => false
  | Some (id, user) =>
      let has_subscription := has_active_subscription st id now in
      let has_trial := 0 <? User.trial_messages_left user in
      has_subscription || has_trial
  end.

Definition decrement_trial_message (st : Store) (user_id : Z) : Z * Store :=
  DatabaseService.decrement_trial_message st user_id.

(** The texts [find_matches] sends or edits, in order. Calls of the
    Telegram API are taken to return normally. *)
Inductive message : Type :=
| SubscriptionRequired            (* subscription_required *)
| Searching                       (* the "searching" message *)
| SearchDone (remaining : option Z)  (* its edit, with the trial line or not *)
| NoMatches
| AllShown.

(** The services and what was sent so far; all of it outlives an
    exception of the handler. *)
Record world : Type := {
  store : Store;
  service : MatchService.t;
  sent : list message
}.

Definition say (w : world) (m : message) : world :=
  {| store := store w; service := service w; sent := sent w ++ [m] |}.

Definition with_store (w : world) (st : Store) : world :=
  {| store := st; service := service w; sent := sent w |}.

Definition with_service (w : world) (svc : MatchService.t) : world :=
  {| store := store w; service := svc; sent := sent w |}.

(** [send_match_info]: its first statement reads [match.match_time], and
    no value decoded from JSON (a dict, a list, a string, a number,
    [None]) has that attribute. *)
Definition send_match_info (m : pyval) : result unit := Raise AttributeError.

(** [for match in matches]: [send_match_info], then
    [match_service.mark_match_as_notified(match.id)]. *)
Fixpoint show_matches (matches : list pyval) : result unit :=
  match matches with
  | [] => Ok ()
  | m :: rest => _ ← send_match_info m; show_matches rest
  end.

Section WithBuiltins.
Context `{Builtins}.

(** [match_service.check_for_matches_with_target_odds()] with the
    service as the call leaves it, also when the loop raises: the cache
    is written before the loop starts. *)
Definition check_matches (svc : MatchService.t) (now : Z) (net : http_outcome)
  : result (list pyval) * MatchService.t :=
  let svc' := match MatchService.fetch_matches svc now net with
              | Ok r => MatchService.after r
              | Raise _ => svc
              end in
  (fst <$> MatchService.check_for_matches_with_target_odds svc now net
             MatchService.default_min_odds MatchService.default_max_odds,
   svc').

(** The three clocks are the [utcnow()] of [is_user_subscribed], of
    [fetch_matches] and of the trial test, in that order. *)
Definition find_matches (w : world) (user_id : Z) (checked fetched_at tested : Z)
    (net : http_outcome) : result unit * world :=
  if negb (is_user_subscribed (store w) user_id checked) then
    (Ok (), say w SubscriptionRequired)
  else
    let w := say w Searching in
    let '(found, svc) := check_matches (service w) fetched_at net in
    let w := with_service w svc in
    match found with
    | Raise e => (Raise e, w)
    | Ok matches =>
        let is_on_trial :=
          match get_user_by_telegram_id (store w) user_id with
          | None => false
          | Some (id, user) =>
              (0 <? User.trial_messages_left user)
              && negb (has_active_subscription (store w) id tested)
          end in
        let w :=
          if is_on_trial then
            let '(remaining, st) := decrement_trial_message (store w) user_id in
            say (with_store w st) (SearchDone (Some remaining))
          else say w (SearchDone None) in
        match matches with
        | [] => (Ok (), say w NoMatches)
        | _ :: _ =>
            match show_matches matches with
            | Raise e => (Raise e, w)
            | Ok _ => (Ok (), say w AllShown)
            end
        end
    end.

End WithBuiltins.

(** [s.replace(old, new)]: left to right, occurrences that do not
    overlap. [skip] counts the characters of a matched occurrence still
    to pass over. An empty [old] matches before every character and at
    the end. *)
Fixpoint str_replace_go (old new : string) (skip : nat) (s : string) : string :=
  match s with
  | EmptyString => EmptyString
  | String c rest =>
      match skip with
      | S k => str_replace_go old new k rest
      | O =>
          if starts_with old s
          then new +:+ str_replace_go old new (String.length old - 1) rest
          else String c (str_replace_go old new 0 rest)
      end
  end.

Fixpoint str_join_each (new : string) (s : string) : string :=
  match s with
  | EmptyString => EmptyString
  | String c rest => String c (new +:+ str_join_each new rest)
  end.

Definition str_replace (old new s : string) : string :=
  match old with
  | EmptyString => new +:+ str_join_each new s
  | String _ _ => str_replace_go old new 0 s
  end.

(** The handlers [button_click] hands a callback to. *)
Inductive handler : Type :=
| Start | FindMatches | BuySubscription | ProcessSubscriptionSelection | CheckPayment
| AdminPanel | AdminStats | AdminGiveSubscription | AdminRevokeSubscription
| AdminProcessGiveSubscription.

(** The [if]/[elif] chain of [button_click]; [None] when no branch
    applies. *)
Definition button_click (callback_data : string) : option handler :=
  if String.eqb callback_data "start" then Some Start
  else if String.eqb callback_data "find_matches" then Some FindMatches
  else if String.eqb callback_data "buy_subscription" then Some BuySubscription
  else if starts_with "sub_" callback_data then Some ProcessSubscriptionSelection
  else if starts_with "check_payment_" callback_data then Some CheckPayment
  else if String.eqb callback_data "admin_panel" then Some AdminPanel
  else if String.eqb callback_data "admin_stats" then Some AdminStats
  else if String.eqb callback_data "admin_give_sub" then Some AdminGiveSubscription
  else if String.eqb callback_data "admin_revoke_sub" then Some AdminRevokeSubscription
  else if starts_with "admin_give_" callback_data then Some AdminProcessGiveSubscription
  else None.

(** [callback_data=f"check_payment_{payment_info['unique_id']}"], the
    "I have paid" button of [process_subscription_selection]. *)
Definition paid_button (unique_id : string) : string := "check_payment_" +:+ unique_id.

(** [query.data.replace("check_payment_", "")] in [check_payment]. *)
Definition paid_button_id (callback_data : string) : string :=
  str_replace "check_payment_" "" callback_data.

(** [query.data.replace("sub_", "")] in [process_subscription_selection]. *)
Definition selected_tariff (callback_data : string) : string :=
  str_replace "sub_" "" callback_data.

(** The shape of [uuid.uuid4().hex[:10]]: lower-case hexadecimal
    digits. *)
Definition hex_digit (c : Ascii.ascii) : bool :=
  str_contains (String c EmptyString) "0123456789abcdef".

Fixpoint hex_id (s : string) : bool :=
  match s with
  | EmptyString => true
  | String c rest => hex_digit c && hex_id rest
  end.

(** *** The admin's text-entry mode *)

(** [context.user_data], the per-user dict, as far as the handlers use
    it: two flags and the username typed for a gift. *)
Record user_data : Type := {
  admin_give_sub : bool;
  admin_revoke_sub : bool;
  sub_username : option string
}.

Definition no_user_data : user_data :=
  {| admin_give_sub := false; admin_revoke_sub := false; sub_username := None |}.

(** What reaches the bot from one user: a pressed button or a text. *)
Inductive update : Type :=
| Callback (data : string)
| Text (text : string).

(** The store methods only the admin handlers call. Each is a
    [@staticmethod] whose body starts by reading [self], so the call
    raises [NameError] and the handler ends there. *)
Inductive admin_call : Type :=
| CallGetWeeklyStats
| CallAdminCreateSubscription (username subscription_type : string)
| CallRevokeSubscription (username : string).

Section AdminMode.
(** [text.strip()], which depends on what Unicode counts as white
    space. *)
Variable strip : string → string.

(** What one update does to [user_data], and the admin method it ends
    in, if any: [button_click] and [handle_message] with the handlers
    they call, for a user for whom [is_admin] answers [admin]. *)
Definition admin_handle (admin : bool) (d : user_data) (u : update)
  : user_data * option admin_call :=
  match u with
  | Callback data =>
      match button_click data with
      | Some AdminStats => (d, if admin then Some CallGetWeeklyStats else None)
      | Some AdminGiveSubscription =>
          if admin then
            ({| admin_give_sub := true; admin_revoke_sub := admin_revoke_sub d;
                sub_username := sub_username d |}, None)
          else (d, None)
      | Some AdminRevokeSubscription =>
          if admin then
            ({| admin_give_sub := admin_give_sub d; admin_revoke_sub := true;
                sub_username := sub_username d |}, None)
          else (d, None)
      | Some AdminProcessGiveSubscription =>
          let sub_type := str_replace "admin_give_" "" data in
          let username := strip (default "" (sub_username d)) in
          if String.eqb username "" then (d, None)
          else (d, Some (CallAdminCreateSubscription username sub_type))
      | _ => (d, None)
      end
  | Text text =>
      if admin_give_sub d then
        let username := str_replace "@" "" (strip text) in
        ({| admin_give_sub := false; admin_revoke_sub := admin_revoke_sub d;
            sub_username := Some username |}, None)
      else if admin_revoke_sub d then
        let username := str_replace "@" "" (strip text) in
        (d, Some (CallRevokeSubscription username))
      else (d, None)
  end.

(** A user's updates in order, with the admin methods they ended in. *)
Fixpoint admin_run (admin : bool) (d : user_data) (updates : list update)
  : user_data * list admin_call :=
  match updates with
  | [] => (d, [])
  | u :: rest =>
      let '(d1, call) := admin_handle admin d u in
      let '(d2, calls) := admin_run admin d1 rest in
      (d2, match call with Some c => c :: calls | None => calls end)
  end.

End AdminMode.

End Bot.

(** ** Scenarios *)

Module Scenario.
Import DatabaseService PaymentService.

(** Builtins for evaluating the scenarios. Their values are strings
    where [str] is applied and numbers where [float] is, so neither
    field is consulted. *)
Definition builtins : Builtins :=
  {| py_repr := λ _, ""; float_of_str := λ _, None |}.

(** A configured cache that fetched one match at clock 0 and was asked
    again, the provider failing, 700 seconds later. *)
Definition client : FootballApiClient.t :=
  {| FootballApiClient.api_key := Some "key";
     FootballApiClient.base_url := "https://api.the-odds-api.com/v4/sports/soccer_epl/odds/" |}.

Definition one_match : pyval :=
  PList [PDict [("odds_1", PNum (425 # 100)); ("odds_2", PNum (1225 # 1000))]].

Definition calls : list (Z * http_outcome) :=
  [(0, Response 200 (Some one_match)); (seconds 700, NetworkError)].

Definition warm : MatchService.t :=
  {| MatchService.api_client := client;
     MatchService.cache := one_match;
     MatchService.last_update := Some 0;
     MatchService.cache_ttl := 600 |}.

Definition log : list (Z * MatchService.fetched) :=
  [(0, {| MatchService.returned := one_match; MatchService.after := warm;
          MatchService.from_client := Some one_match |});
   (seconds 700, {| MatchService.returned := one_match; MatchService.after := warm;
                    MatchService.from_client := Some (PList []) |})].

(** The steps of the lifecycle scenario on the empty store: a user is
    created, uses up the three trial messages, buys a week at [bought],
    and an admin revokes the subscription at [revoked]. *)
Definition lifecycle_user : (Z * User.t) * Store :=
  get_or_create_user empty 4242 (Some "alice") (Some "Alice") None 0.

Definition lifecycle_trial_used : Z * Store :=
  let uid := fst (fst lifecycle_user) in
  let st1 := snd (decrement_trial_message (snd lifecycle_user) uid) in
  let st2 := snd (decrement_trial_message st1 uid) in
  decrement_trial_message st2 uid.

Definition lifecycle_subscribed (bought : Z) : Store :=
  snd (create_subscription (snd lifecycle_trial_used) (fst (fst lifecycle_user))
         "week" (650 # 1) "abc123" bought).

(** The pending link of the specification's scenario. *)
Definition scenario_link : PaymentLink.t :=
  {| PaymentLink.telegram_user_id := 4242;
     PaymentLink.unique_id := "abc123";
     PaymentLink.subscription_type := "week";
     PaymentLink.amount := inject_Z (get_subscription_price "week");
     PaymentLink.created_at := 0;
     PaymentLink.paid := false |}.

Definition scenario_donation (message : string) (amount : Q) : pyval :=
  PDict [("id", PNum (7 # 1)); ("message", PStr message); ("amount", PNum amount)].

End Scenario.

(** * Properties *)

(** ** The match cache *)

Section MatchCache.
Import MatchService.

Lemma client_total (c : FootballApiClient.t) (net : http_outcome) :
  ∃ v, FootballApiClient.fetch_matches c net = Ok v.
Proof.
  unfold FootballApiClient.fetch_matches.
  destruct (key_missing _); [eauto|].
  destruct net as [|status [data|]]; simpl; [eauto| |];
    destruct (status =? 200); simpl; eauto.
Qed.

Lemma fetch_matches_total (self : t) (now : Z) (net : http_outcome) :
  ∃ r, fetch_matches self now net = Ok r.
Proof.
  unfold fetch_matches. destruct (fresh self now); [eauto|].
  destruct (client_total (api_client self) net) as [v ->]. simpl.
  destruct (truthy v); eauto.
Qed.

(** A call that does not succeed leaves the service as it was and
    returns the stored cache. *)
Lemma fetch_matches_no_success self now net r :
  fetch_matches self now net = Ok r →
  succeeded (now, r) = None →
  after r = self ∧ returned r = cache self.
Proof.
  unfold fetch_matches, succeeded. destruct (fresh self now).
  - intros [= <-]. auto.
  - destruct (FootballApiClient.fetch_matches _ _) as [v|e]; simpl; [|discriminate].
    destruct (truthy v) eqn:Hv; intros [= <-]; simpl; [rewrite Hv; discriminate|auto].
Qed.

Lemma fetch_matches_success self now net r s :
  fetch_matches self now net = Ok r →
  succeeded (now, r) = Some s →
  last_update (after r) = Some (fst s) ∧ cache (after r) = snd s.
Proof.
  unfold fetch_matches, succeeded. destruct (fresh self now).
  - intros [= <-]. discriminate.
  - destruct (FootballApiClient.fetch_matches _ _) as [v|e]; simpl; [|discriminate].
    destruct (truthy v) eqn:Hv; intros [= <-]; simpl; rewrite Hv; [|discriminate].
    intros [= <-]. auto.
Qed.

(** After any run, the service holds the answer and the clock of the
    latest successful call, or what it started with. *)
Lemma run_holds_most_recent_success calls : ∀ self final log,
  run self calls = Ok (final, log) →
  match most_recent_success log with
  | Some (at_time, v) => last_update final = Some at_time ∧ cache final = v
  | None => final = self
  end.
Proof.
  induction calls as [|[now net] rest IH]; intros self final log; simpl.
  - intros [= <- <-]. reflexivity.
  - destruct (fetch_matches self now net) as [r|e] eqn:Hr; simpl; [|discriminate].
    destruct (run (after r) rest) as [[final' log']|e] eqn:Hrun; simpl; [|discriminate].
    intros [= <- <-]. simpl.
    specialize (IH _ _ _ Hrun).
    destruct (most_recent_success log') as [[at_time v]|]; [exact IH|].
    subst final'.
    destruct (succeeded (now, r)) as [[at_time v]|] eqn:Hs.
    + apply (fetch_matches_success _ _ _ _ _ Hr Hs).
    + apply (fetch_matches_no_success _ _ _ _ Hr Hs).
Qed.

(** C2. A fetch whose provider answer is empty leaves the stored
    sequence and the last-success time untouched and returns the stored
    sequence; at every point of a run that started with a fresh service,
    what is stored is the answer of the latest successful fetch (the
    empty list when none succeeded), with its time. *)
Theorem fetch_matches_empty_keeps_cache
    (client : FootballApiClient.t) (ttl : Z) (calls : list (Z * http_outcome))
    (self : t) (log : list (Z * fetched)) (now : Z) (net : http_outcome) (v : pyval) :
  run (init client ttl) calls = Ok (self, log) →
  FootballApiClient.fetch_matches (api_client self) net = Ok v →
  truthy v = false →
  ∃ r, fetch_matches self now net = Ok r
       ∧ after r = self
       ∧ returned r = cache self
       ∧ cache self = from_option snd (PList []) (most_recent_success log)
       ∧ last_update self = fst <$> most_recent_success log.
Proof.
  intros Hrun Hclient Hempty.
  destruct (fetch_matches_total self now net) as [r Hr]. exists r.
  assert (succeeded (now, r) = None) as Hs.
  { revert Hr. unfold fetch_matches, succeeded. destruct (fresh self now).
    - by intros [= <-].
    - rewrite Hclient. simpl. rewrite Hempty. intros [= <-]. simpl. by rewrite Hempty. }
  destruct (fetch_matches_no_success _ _ _ _ Hr Hs) as [-> ->].
  pose proof (run_holds_most_recent_success _ _ _ _ Hrun) as Hinv.
  destruct (most_recent_success log) as [[at_time w]|]; simpl.
  - destruct Hinv as [-> ->]. auto.
  - subst self. auto.
Qed.

(** C3. Within the time-to-live of the last successful fetch, the client
    is not called, the service is unchanged and the stored sequence is
    returned. *)
Theorem fetch_matches_within_ttl
    (self : t) (now : Z) (net : http_outcome) (last : Z) :
  last_update self = Some last →
  now - last < seconds (cache_ttl self) →
  fetch_matches self now net
  = Ok {| returned := cache self; after := self; from_client := None |}.
Proof.
  intros Hlast Hfresh. unfold fetch_matches, fresh. rewrite Hlast.
  by rewrite (proj2 (Z.ltb_lt _ _) Hfresh).
Qed.

Lemma fetch_matches_empty_keeps_cache_witness :
  ∃ r, fetch_matches Scenario.warm (seconds 800) (Response 503 None) = Ok r
       ∧ after r = Scenario.warm
       ∧ returned r = cache Scenario.warm
       ∧ cache Scenario.warm
         = from_option snd (PList []) (most_recent_success Scenario.log)
       ∧ last_update Scenario.warm = fst <$> most_recent_success Scenario.log.
Proof.
  apply (fetch_matches_empty_keeps_cache Scenario.client 600 Scenario.calls
           Scenario.warm Scenario.log (seconds 800) (Response 503 None) (PList []));
    reflexivity.
Defined.

Lemma fetch_matches_within_ttl_witness :
  fetch_matches Scenario.warm (seconds 599) NetworkError
  = Ok {| returned := Scenario.one_match; after := Scenario.warm; from_client := None |}.
Proof.
  apply (fetch_matches_within_ttl Scenario.warm (seconds 599) NetworkError 0);
    reflexivity.
Defined.

(** The boundary: at exactly the time-to-live the client is asked. *)
Example fetch_matches_at_ttl :
  from_client <$> fetch_matches Scenario.warm (seconds 600) NetworkError
  = Ok (Some (PList [])).
Proof. reflexivity. Qed.

(** Before any successful fetch the cache returns the empty list. *)
Example fetch_matches_never_fetched :
  returned <$> fetch_matches (init Scenario.client 600) 0 NetworkError = Ok (PList []).
Proof. reflexivity. Qed.

(** C6. The client's fetch returns a value for every outcome of the HTTP
    exchange, and the empty list when the key is missing, the request
    fails, the status is not 200 or the body is not JSON; so the cache's
    fetch returns as well. *)
Theorem client_fetch_never_raises (c : FootballApiClient.t) (net : http_outcome) :
  (∃ v, FootballApiClient.fetch_matches c net = Ok v)
  ∧ (key_missing (FootballApiClient.api_key c) = true →
     FootballApiClient.fetch_matches c net = Ok (PList []))
  ∧ FootballApiClient.fetch_matches c NetworkError = Ok (PList [])
  ∧ (∀ status json, status ≠ 200 →
     FootballApiClient.fetch_matches c (Response status json) = Ok (PList []))
  ∧ (∀ status, FootballApiClient.fetch_matches c (Response status None) = Ok (PList []))
  ∧ (∀ self now, api_client self = c → ∃ r, fetch_matches self now net = Ok r).
Proof.
  split; [apply client_total|].
  unfold FootballApiClient.fetch_matches.
  repeat split.
  - by intros ->.
  - by destruct (key_missing _).
  - intros status json Hne. destruct (key_missing _); [done|].
    by rewrite (proj2 (Z.eqb_neq _ _) Hne).
  - intros status. destruct (key_missing _); [done|].
    by destruct (status =? 200).
  - intros self now _. apply fetch_matches_total.
Qed.

(** A body that decodes is handed back as it is, whatever its shape. *)
Remark client_fetch_decoded_body (c : FootballApiClient.t) (data : pyval) :
  key_missing (FootballApiClient.api_key c) = false →
  FootballApiClient.fetch_matches c (Response 200 (Some data)) = Ok data.
Proof. unfold FootballApiClient.fetch_matches. by intros ->. Qed.

End MatchCache.

(** ** The odds filter *)

Section OddsFilter.
Context `{Builtins}.
Import MatchService.

Lemma filter_step_kept min_odds max_odds result m :
  filter_step min_odds max_odds result m
  = result ++ (if kept min_odds max_odds m then [m] else []).
Proof.
  unfold filter_step, kept.
  destruct (odds_in_range min_odds max_odds m) as [[|]|e]; by rewrite ?app_nil_r.
Qed.

Lemma fold_filter_step min_odds max_odds matches : ∀ result,
  fold_left (filter_step min_odds max_odds) matches result
  = result ++ List.filter (kept min_odds max_odds) matches.
Proof.
  induction matches as [|m rest IH]; intros result; simpl.
  - by rewrite app_nil_r.
  - rewrite IH, filter_step_kept, <- app_assoc.
    by destruct (kept min_odds max_odds m).
Qed.

Lemma filter_matches_filter min_odds max_odds matches :
  filter_matches min_odds max_odds matches
  = List.filter (kept min_odds max_odds) matches.
Proof. apply fold_filter_step. Qed.

Lemma filter_twice {A} (p : A → bool) (l : list A) :
  List.filter p (List.filter p l) = List.filter p l.
Proof.
  induction l as [|x l IH]; simpl; [done|].
  destruct (p x) eqn:Hx; simpl; [rewrite Hx; by f_equal|done].
Qed.

Lemma filter_is_sublist {A} (p : A → bool) (l : list A) :
  List.filter p l `sublist_of` l.
Proof.
  induction l as [|x l IH]; simpl; [constructor|].
  destruct (p x); by constructor.
Qed.

(** C8. The loop of [check_for_matches_with_target_odds] is a function
    of the sequence it walks: run on its own output it returns that
    output again, what it returns is a subsequence of the input in the
    input's order, and the method returns the loop's value on what
    [fetch_matches] returned, leaving the service as [fetch_matches]
    left it. *)
Theorem filter_matches_pure (min_odds max_odds : Q) (matches : list pyval) :
  filter_matches min_odds max_odds (filter_matches min_odds max_odds matches)
  = filter_matches min_odds max_odds matches
  ∧ filter_matches min_odds max_odds matches `sublist_of` matches
  ∧ (∀ m, m ∈ filter_matches min_odds max_odds matches ↔
          m ∈ matches ∧ odds_in_range min_odds max_odds m = Ok true)
  ∧ (∀ self now net r,
       fetch_matches self now net = Ok r →
       py_iter (returned r) = Ok matches →
       check_for_matches_with_target_odds self now net min_odds max_odds
       = Ok (filter_matches min_odds max_odds matches, after r)).
Proof.
  rewrite !filter_matches_filter.
  split; [apply filter_twice|].
  split; [apply filter_is_sublist|].
  split.
  - intros m. rewrite !list_elem_of_In, filter_In. unfold kept.
    destruct (odds_in_range _ _ _) as [[|]|e]; intuition congruence.
  - intros self now net r Hr Hiter. unfold check_for_matches_with_target_odds.
    rewrite Hr. simpl. rewrite Hiter. simpl. by rewrite filter_matches_filter.
Qed.

(** C1, evaluated on the code. With the defaults of its signature the
    filter that the bot calls keeps a match priced (2.0, 3.0), and keeps
    a match priced (4.25, 1.225) that is already notified: it tests a
    range only. The query that names the two target pairs rejects both
    rows, and [get_matches_with_target_odds] itself raises. *)
Theorem range_filter_keeps_other_odds :
  let plain := PDict [("odds_1", PNum (2 # 1)); ("odds_2", PNum (3 # 1))] in
  let notified := PDict [("odds_1", PNum (425 # 100)); ("odds_2", PNum (1225 # 1000));
                         ("notification_sent", PBool true)] in
  let row o1 o2 sent :=
    {| Match.home_team := "A"; Match.away_team := "B"; Match.competition := "C";
       Match.match_time := 10; Match.odds_1 := o1; Match.odds_x := 3 # 1;
       Match.odds_2 := o2; Match.notification_sent := sent; Match.match_url := None |} in
  let service := init {| FootballApiClient.api_key := Some "key";
                         FootballApiClient.base_url := "url" |} 600 in
  (∃ after_call,
     check_for_matches_with_target_odds service 0
       (Response 200 (Some (PList [plain; notified])))
       default_min_odds default_max_odds
     = Ok ([plain; notified], after_call))
  ∧ DatabaseService.target_odds 0 (row (2 # 1) (3 # 1) false) = false
  ∧ DatabaseService.target_odds 0 (row (425 # 100) (1225 # 1000) true) = false
  ∧ DatabaseService.target_odds 0 (row (4254 # 1000) (12247 # 10000) false) = true
  ∧ (∀ st now, DatabaseService.get_matches_with_target_odds st now = Raise NameError).
Proof.
  repeat split.
  eexists. reflexivity.
Qed.

End OddsFilter.

(** ** The persistence store *)

Section Persistence.
Import DatabaseService.

Lemma row_id_position (i : nat) : Z.to_nat (row_id i - 1) = i.
Proof. unfold row_id. lia. Qed.

Lemma by_id_row_id {A} (table : list A) (i : nat) : by_id table (row_id i) = table !! i.
Proof.
  unfold by_id. rewrite row_id_position.
  destruct (1 <=? row_id i) eqn:Hle; [done|].
  apply Z.leb_gt in Hle. unfold row_id in Hle. lia.
Qed.

Lemma by_id_Some {A} (table : list A) (id : Z) (x : A) :
  by_id table id = Some x → ∃ i, id = row_id i ∧ table !! i = Some x.
Proof.
  unfold by_id. destruct (1 <=? id) eqn:Hle; [|done].
  apply Z.leb_le in Hle. intros Hx. exists (Z.to_nat (id - 1)).
  split; [unfold row_id; lia|done].
Qed.

Lemma by_id_insert_other {A} (table : list A) (i : nat) (x : A) (other : Z) :
  other ≠ row_id i → by_id (<[i:=x]> table) other = by_id table other.
Proof.
  intros Hne. unfold by_id. destruct (1 <=? other) eqn:Hle; [|done].
  apply Z.leb_le in Hle. apply list_lookup_insert_ne. unfold row_id in Hne. lia.
Qed.

Lemma first_row_Some {A} (P : A → Prop) `{!∀ x, Decision (P x)} table id x :
  first_row P table = Some (id, x) ↔
  ∃ i, id = row_id i ∧ list_find P table = Some (i, x).
Proof.
  unfold first_row. rewrite fmap_Some. split.
  - intros [[i y] [Hfind [= -> ->]]]. eauto.
  - intros [i [-> Hfind]]. by exists (i, x).
Qed.

Lemma first_row_None {A} (P : A → Prop) `{!∀ x, Decision (P x)} table :
  first_row P table = None ↔ list_find P table = None.
Proof. unfold first_row. apply fmap_None. Qed.

Lemma commit_users {A} st (r : result (A * Store)) :
  (∀ a st', r = Ok (a, st') → users st' = users st) →
  users (commit st r) = users st.
Proof. destruct r as [[a st']|e]; simpl; eauto. Qed.

Lemma step_trial_not_negative st o :
  trial_not_negative st → trial_not_negative (step st o).
Proof.
  unfold trial_not_negative. intros Hst. destruct o; simpl.
  - unfold get_or_create_user. destruct (get_user_by_telegram_id _ _); simpl; [done|].
    apply Forall_app. split; [done|]. by repeat constructor.
  - unfold decrement_trial_message.
    destruct (by_id (users st) user_id) as [user|]; [|done].
    destruct (0 <? User.trial_messages_left user) eqn:Hpos; [|done]. simpl.
    apply Forall_insert; [done|]. simpl. apply Z.ltb_lt in Hpos. lia.
  - rewrite commit_users; [done|]. unfold create_payment_link.
    intros a st'. destruct (first_row _ _); [done|]. by intros [= <- <-].
  - unfold mark_payment_as_paid.
    destruct (first_row _ _) as [[id l]|]; [|done]. by destruct (negb _).
  - done.
  - done.
  - done.
Qed.

Lemma run_ops_from_trial_not_negative ops : ∀ st,
  trial_not_negative st → trial_not_negative (fold_left step ops st).
Proof.
  induction ops as [|o ops IH]; intros st Hst; simpl; [done|].
  by apply IH, step_trial_not_negative.
Qed.

(** C9. [decrement_trial_message] takes one off the count of an existing
    user whose count is positive and returns the new count, touching no
    other row; otherwise it returns 0 and changes nothing. Hence no
    history of calls on the store leaves a negative count. *)
Theorem decrement_trial_message_spec :
  (∀ st user_id user,
     by_id (users st) user_id = Some user →
     0 < User.trial_messages_left user →
     let out := decrement_trial_message st user_id in
     fst out = User.trial_messages_left user - 1
     ∧ by_id (users (snd out)) user_id
       = Some (with_trial user (User.trial_messages_left user - 1))
     ∧ (∀ other, other ≠ user_id →
          by_id (users (snd out)) other = by_id (users st) other)
     ∧ subscriptions (snd out) = subscriptions st
     ∧ payment_links (snd out) = payment_links st
     ∧ matches (snd out) = matches st)
  ∧ (∀ st user_id,
       by_id (users st) user_id = None
       ∨ (∃ user, by_id (users st) user_id = Some user
                  ∧ User.trial_messages_left user ≤ 0) →
       decrement_trial_message st user_id = (0, st))
  ∧ (∀ ops, Forall (λ u, 0 ≤ User.trial_messages_left u) (users (run_ops ops))).
Proof.
  split; [|split].
  - intros st user_id user Huser Hpos. unfold decrement_trial_message.
    rewrite Huser, (proj2 (Z.ltb_lt _ _) Hpos). simpl.
    destruct (by_id_Some _ _ _ Huser) as [i [-> Hi]].
    rewrite row_id_position. split; [done|]. split; [|split; [|done]].
    + rewrite by_id_row_id. apply list_lookup_insert_eq. by eapply lookup_lt_Some.
    + intros other Hne. by apply by_id_insert_other.
  - intros st user_id [Hnone|[user [Huser Hzero]]]; unfold decrement_trial_message.
    + by rewrite Hnone.
    + rewrite Huser. by rewrite (proj2 (Z.ltb_ge _ _) Hzero).
  - intros ops. apply (run_ops_from_trial_not_negative ops empty). constructor.
Qed.

Example decrement_trial_message_to_zero :
  let st := snd (get_or_create_user empty 4242 (Some "alice") None None 0) in
  let once := decrement_trial_message st 1 in
  let twice := decrement_trial_message (snd once) 1 in
  let thrice := decrement_trial_message (snd twice) 1 in
  (fst once, fst twice, fst thrice) = (2, 1, 0)
  ∧ decrement_trial_message (snd thrice) 1 = (0, snd thrice)
  ∧ decrement_trial_message st 2 = (0, st).
Proof. repeat split. Qed.

Lemma get_payment_link_after_mark st unique_id i link :
  list_find (λ l, PaymentLink.unique_id l = unique_id) (payment_links st) = Some (i, link) →
  list_find (λ l, PaymentLink.unique_id l = unique_id)
    (<[i := with_paid link]> (payment_links st)) = Some (i, with_paid link).
Proof.
  intros Hfind. apply list_find_insert_Some. right. left.
  apply list_find_Some in Hfind as (Hi & Hid & Hleast).
  split_and!; [done|done|by eapply lookup_lt_Some|done|done].
Qed.

Lemma mark_payment_as_paid_pending st unique_id id link :
  get_payment_link st unique_id = Some (id, link) →
  PaymentLink.paid link = false →
  mark_payment_as_paid st unique_id
  = (Some (with_paid link),
     set_payment_links st (<[Z.to_nat (id - 1) := with_paid link]> (payment_links st))).
Proof.
  unfold get_payment_link, mark_payment_as_paid. intros -> Hpaid. by rewrite Hpaid.
Qed.

Lemma mark_payment_as_paid_refused st unique_id :
  get_payment_link st unique_id = None
  ∨ (∃ id link, get_payment_link st unique_id = Some (id, link)
                ∧ PaymentLink.paid link = true) →
  mark_payment_as_paid st unique_id = (None, st).
Proof.
  unfold get_payment_link, mark_payment_as_paid.
  intros [->|(id & link & -> & Hpaid)]; [done|]. by rewrite Hpaid.
Qed.

End Persistence.

(** ** Subscriptions *)

Section Subscriptions.
Import DatabaseService Scenario.

Lemma has_active_subscription_true st user_id now :
  has_active_subscription st user_id now = true ↔
  ∃ s, s ∈ subscriptions st ∧ Subscription.user_id s = user_id
       ∧ now ≤ Subscription.end_date s.
Proof.
  unfold has_active_subscription. rewrite bool_decide_eq_true. split.
  - intros [[id s] Hs]. apply first_row_Some in Hs as [i [_ Hfind]].
    apply list_find_Some in Hfind as (Hi & [Hu He] & _).
    exists s. split_and!; [|done..]. by eapply list_elem_of_lookup_2.
  - intros (s & Hin & Hu & He).
    destruct (first_row _ (subscriptions st)) as [r|] eqn:Hr; [done|].
    apply first_row_None, list_find_None in Hr.
    rewrite Forall_forall in Hr. by destruct (Hr s Hin).
Qed.

(** A subscription created at [now] is active from [now] up to its end,
    whatever its type. *)
Lemma has_active_subscription_after_create st user_id subscription_type amount payment_id
    now later :
  now ≤ later ≤ now + weeks 1 →
  has_active_subscription
    (snd (create_subscription st user_id subscription_type amount payment_id now))
    user_id later = true.
Proof.
  intros Hlater. apply has_active_subscription_true. simpl.
  eexists. split; [apply elem_of_app; right; apply list_elem_of_singleton; reflexivity|].
  simpl. split; [done|].
  unfold weeks, days, seconds in *.
  repeat destruct (String.eqb _ _); lia.
Qed.

(** C5, evaluated on the code. The lifecycle holds up to the purchase:
    no active subscription and no trial message left, then an active
    subscription. The revocation does not happen: the call raises
    [NameError], the store keeps the end date, and the subscription is
    still active afterwards. The body of the method, had it run, would
    have ended it. *)
Theorem revoke_subscription_raises :
  let uid := fst (fst lifecycle_user) in
  let bought := seconds 1000 in
  let revoked := seconds 2000 in
  fst lifecycle_trial_used = 0
  ∧ has_active_subscription (snd lifecycle_trial_used) uid bought = false
  ∧ has_active_subscription (lifecycle_subscribed bought) uid revoked = true
  ∧ (∀ st username now, revoke_subscription st username now = Raise NameError)
  ∧ step (lifecycle_subscribed bought) (RevokeSubscription "alice" revoked)
    = lifecycle_subscribed bought
  ∧ has_active_subscription
      (step (lifecycle_subscribed bought) (RevokeSubscription "alice" revoked))
      uid (revoked + 1) = true
  ∧ has_active_subscription
      (snd (revoke_subscription_body (lifecycle_subscribed bought) "alice" revoked))
      uid (revoked + 1) = false.
Proof. repeat split; vm_compute; reflexivity. Qed.

End Subscriptions.

(** ** [float()] on numbers *)

Section Floats.
Context `{Builtins}.

Lemma nearest_double_small (n : Z) : Z.abs n < two_53 → nearest_double n = n.
Proof.
  intros Hn. unfold nearest_double. cbv zeta.
  by destruct (Z.ltb_spec (Z.abs n) two_53); [|lia].
Qed.

(** From [2^53] on, the nearest double keeps the sign and stays between
    the two powers of two that enclose the number. *)
Lemma nearest_double_large (n : Z) :
  two_53 ≤ Z.abs n →
  ∃ d, nearest_double n = Z.sgn n * d
       ∧ 2 ^ Z.log2 (Z.abs n) ≤ d ≤ 2 ^ (Z.log2 (Z.abs n) + 1)
       ∧ 53 ≤ Z.log2 (Z.abs n).
Proof.
  intros Hn. unfold nearest_double. cbv zeta.
  destruct (Z.ltb_spec (Z.abs n) two_53); [lia|].
  eexists. split; [reflexivity|].
  set (a := Z.abs n) in *.
  assert (53 ≤ Z.log2 a) as Hlog.
  { change 53 with (Z.log2 two_53). by apply Z.log2_le_mono. }
  split; [|done].
  set (e := Z.log2 a - 52).
  assert (0 < a) as Hpos by (unfold two_53 in *; lia).
  destruct (Z.log2_spec a Hpos) as [Hlow Hhigh].
  replace (Z.succ (Z.log2 a)) with (Z.log2 a + 1) in Hhigh by lia.
  replace (Z.log2 a) with (52 + e) in * by lia.
  replace (52 + e + 1) with (53 + e) in * by lia.
  rewrite Z.pow_add_r in Hlow, Hhigh |- * by lia.
  rewrite (Z.pow_add_r 2 53 e) by lia.
  assert (0 < 2 ^ e) as Hpow by (apply Z.pow_pos_nonneg; lia).
  assert (2 ^ 52 ≤ a / 2 ^ e) as Hm.
  { apply Z.div_le_lower_bound; [done|]. lia. }
  assert (a / 2 ^ e < 2 ^ 53) as Hm'.
  { apply Z.div_lt_upper_bound; [done|]. lia. }
  set (m := a / 2 ^ e) in *.
  destruct (_ || _); nia.
Qed.

Lemma whole_Some (q : Q) (n : Z) : whole q = Some n → (q == inject_Z n)%Q.
Proof.
  unfold whole. destruct (Z.eqb_spec (Qnum q mod Z.pos (Qden q)) 0) as [Hmod|]; [|done].
  intros [= <-]. unfold Qeq. simpl.
  pose proof (Z.div_mod (Qnum q) (Z.pos (Qden q))). lia.
Qed.

(** Against a whole threshold of less than [2^53] in size, the float of
    a number compares as the number does. *)
Lemma py_float_num_le (q a : Q) (t : Z) :
  Z.abs t < two_53 →
  py_float (PNum q) = Ok a →
  (inject_Z t <= a ↔ inject_Z t <= q)%Q.
Proof.
  intros Ht. simpl. destruct (whole q) as [n|] eqn:Hwhole.
  2: { by intros [= <-]. }
  apply whole_Some in Hwhole. rewrite Hwhole.
  unfold float_of_int. cbv zeta. destruct (_ <=? _); [done|]. intros [= <-].
  rewrite <- !Zle_Qle.
  destruct (Z_lt_le_dec (Z.abs n) two_53) as [Hsmall|Hlarge].
  - by rewrite nearest_double_small.
  - destruct (nearest_double_large n Hlarge) as (d & -> & [Hd _] & Hlog).
    assert (two_53 ≤ 2 ^ Z.log2 (Z.abs n)).
    { change two_53 with (2 ^ 53). apply Z.pow_le_mono_r; lia. }
    lia.
Qed.

(** [float()] takes every number below [2^1023] in size, and no whole
    number of [2^1024] or more. *)
Lemma py_float_num_accepted (q : Q) :
  (Qabs q < inject_Z (2 ^ 1023))%Q → ∃ a, py_float (PNum q) = Ok a.
Proof.
  intros Hq. simpl. destruct (whole q) as [n|] eqn:Hwhole; [|eauto].
  apply whole_Some in Hwhole. rewrite Hwhole in Hq.
  assert (Z.abs n < 2 ^ 1023) as Hn.
  { unfold Qlt, Qabs, inject_Z in Hq. cbn [Qnum Qden] in Hq. lia. }
  unfold float_of_int. cbv zeta.
  destruct (Z.leb_spec two_1024 (Z.abs (nearest_double n))) as [Hover|]; [|eauto].
  exfalso.
  assert (0 < 2 ^ 1023) as Hpos by (apply Z.pow_pos_nonneg; lia).
  change two_1024 with (2 ^ 1023 * 2) in Hover.
  destruct (Z_lt_le_dec (Z.abs n) two_53) as [Hsmall|Hlarge].
  - rewrite nearest_double_small in Hover by done. lia.
  - destruct (nearest_double_large n Hlarge) as (d & Hd & [Hlow Hhigh] & Hlog).
    rewrite Hd in Hover.
    assert (Z.log2 (Z.abs n) < 1023) as Hl.
    { apply Z.log2_lt_pow2; lia. }
    assert (2 ^ (Z.log2 (Z.abs n) + 1) ≤ 2 ^ 1023).
    { apply Z.pow_le_mono_r; lia. }
    assert (0 < 2 ^ Z.log2 (Z.abs n)) by (apply Z.pow_pos_nonneg; lia).
    lia.
Qed.

Lemma py_float_num_overflow (n : Z) :
  two_1024 ≤ Z.abs n → py_float (PNum (inject_Z n)) = Raise OverflowError.
Proof.
  intros Hn. simpl. unfold whole. simpl. rewrite Z.mod_1_r, Z.div_1_r. simpl.
  unfold float_of_int. cbv zeta.
  assert (0 < two_1024) as Hpos by done.
  assert (two_53 ≤ Z.abs n) as Hlarge.
  { assert (two_53 ≤ two_1024) by (by vm_compute). lia. }
  destruct (nearest_double_large n Hlarge) as (d & -> & [Hlow _] & _).
  assert (two_1024 ≤ 2 ^ Z.log2 (Z.abs n)).
  { change two_1024 with (2 ^ 1024). apply Z.pow_le_mono_r; [lia|].
    change 1024 with (Z.log2 two_1024). by apply Z.log2_le_mono. }
  destruct (Z.leb_spec two_1024 (Z.abs (Z.sgn n * d))); [done|]. lia.
Qed.

End Floats.

(** ** Payment confirmation *)

Section Payments.
Context `{Builtins}.
Import DatabaseService PaymentService Scenario.

Lemma starts_with_spec needle : ∀ hay,
  starts_with needle hay = true ↔ ∃ after, hay = needle +:+ after.
Proof.
  induction needle as [|a needle IH]; intros hay; simpl.
  - split; [eauto|done].
  - destruct hay as [|b hay].
    + split; [done|]. by intros [after [=]].
    + rewrite andb_true_iff, Ascii.eqb_eq, IH. split.
      * intros [-> [after ->]]. eauto.
      * intros [after [= -> ->]]. eauto.
Qed.

Lemma str_contains_spec needle : ∀ hay,
  str_contains needle hay = true ↔ is_substring needle hay.
Proof.
  unfold is_substring.
  induction hay as [|c hay IH]; simpl; rewrite orb_true_iff, starts_with_spec.
  - split.
    + intros [[after ->]|[=]]. by exists "", after.
    + intros [[|? ?] [after Heq]]; [|done]. left. eauto.
  - rewrite IH. split.
    + intros [[after ->]|[before [after ->]]].
      * by exists "", after.
      * by exists (String c before), after.
    + intros [[|c' before] [after Heq]]; simpl in Heq.
      * left. eauto.
      * injection Heq as -> ->. right. eauto.
Qed.

Lemma donation_matches_iff payment_link donation :
  donation_matches payment_link donation = Ok true ↔ meets_link payment_link donation.
Proof.
  unfold donation_matches, meets_link.
  destruct (py_get donation "message" (PStr "")) as [message|e]; simpl.
  2: { split; [done|]. by intros (? & ? & ? & [=] & _). }
  destruct (str_contains _ (py_str message)) eqn:Hsub.
  - apply str_contains_spec in Hsub.
    destruct (py_get donation "amount" (PNum 0)) as [v|e]; simpl.
    2: { split; [done|]. by intros (? & ? & ? & _ & _ & [=] & _). }
    destruct (py_float v) as [amount|e] eqn:Hfloat; simpl.
    2: { split; [done|]. intros (? & ? & ? & _ & _ & [= <-] & Hf & _). congruence. }
    split.
    + intros [= Hle]. apply Qle_bool_iff in Hle. by exists message, v, amount.
    + intros (? & ? & ? & _ & _ & [= <-] & Hf & Hle).
      rewrite Hfloat in Hf. injection Hf as <-.
      f_equal. by apply Qle_bool_iff.
  - split; [done|]. intros (? & ? & ? & [= <-] & Hs & _).
    apply str_contains_spec in Hs. congruence.
Qed.

Lemma find_donation_Some payment_link donations donation :
  find_donation payment_link donations = Some donation →
  donation ∈ donations ∧ donation_matches payment_link donation = Ok true.
Proof.
  induction donations as [|d rest IH]; simpl; [done|].
  destruct (donation_matches payment_link d) as [[|]|e] eqn:Hd.
  - intros [= <-]. split; [left|done].
  - intros [Hin Hm]%IH. split; [by right|done].
  - intros [Hin Hm]%IH. split; [by right|done].
Qed.

Lemma find_donation_None payment_link donations :
  find_donation payment_link donations = None ↔
  ∀ d, d ∈ donations → donation_matches payment_link d ≠ Ok true.
Proof.
  induction donations as [|d rest IH]; simpl.
  - split; [|done]. intros _ d Hd. by apply elem_of_nil in Hd.
  - destruct (donation_matches payment_link d) as [[|]|e] eqn:Hd.
    + split; [done|]. intros Hall. destruct (Hall d); [left|done].
    + rewrite IH. split.
      * intros Hall d' [->|Hin]%elem_of_cons; [congruence|auto].
      * intros Hall d' Hin. apply Hall. by right.
    + rewrite IH. split.
      * intros Hall d' [->|Hin]%elem_of_cons; [congruence|auto].
      * intros Hall d' Hin. apply Hall. by right.
Qed.

Lemma find_donation_is_Some payment_link donations :
  is_Some (find_donation payment_link donations) ↔
  ∃ d, d ∈ donations ∧ meets_link payment_link d.
Proof.
  split.
  - intros [d [Hin Hm]%find_donation_Some]. exists d.
    by rewrite <- donation_matches_iff.
  - intros (d & Hin & Hm%donation_matches_iff).
    destruct (find_donation payment_link donations) eqn:Hfind; [done|].
    rewrite find_donation_None in Hfind. by destruct (Hfind d Hin).
Qed.

(** A donation that matches a link with a non-empty id is a non-empty
    dict. *)
Lemma matching_donation_truthy payment_link donation :
  PaymentLink.unique_id payment_link ≠ "" →
  donation_matches payment_link donation = Ok true →
  truthy donation = true.
Proof.
  intros Hid. unfold donation_matches.
  destruct donation as [| | | |items|[|kv kvs]]; try done. simpl.
  destruct (PaymentLink.unique_id payment_link); [done|]. done.
Qed.


(** C10. A link already marked paid makes [check_payment] answer
    "already processed" and leave the store as it is.
    [mark_payment_as_paid] returns a link exactly when the link exists
    and is unpaid; it then hands back that link marked paid, which is
    what the store holds for the id afterwards, every other row being
    untouched; otherwise it returns nothing and leaves the store as it
    is. A second marking of the same id is always refused. *)
Theorem payment_link_redeemed_once :
  (∀ self st unique_id net now id payment_link,
     db_service self = true →
     get_payment_link st unique_id = Some (id, payment_link) →
     PaymentLink.paid payment_link = true →
     check_payment self st unique_id net now = Ok (Failure PaymentAlreadyProcessed, st))
  ∧ (∀ st unique_id,
       is_Some (fst (mark_payment_as_paid st unique_id)) ↔
       ∃ id payment_link, get_payment_link st unique_id = Some (id, payment_link)
                          ∧ PaymentLink.paid payment_link = false)
  ∧ (∀ st unique_id id payment_link,
       get_payment_link st unique_id = Some (id, payment_link) →
       PaymentLink.paid payment_link = false →
       let marked := mark_payment_as_paid st unique_id in
       fst marked = Some (with_paid payment_link)
       ∧ get_payment_link (snd marked) unique_id = Some (id, with_paid payment_link)
       ∧ (∀ other, other ≠ id →
            by_id (payment_links (snd marked)) other = by_id (payment_links st) other)
       ∧ users (snd marked) = users st
       ∧ subscriptions (snd marked) = subscriptions st
       ∧ matches (snd marked) = matches st)
  ∧ (∀ st unique_id,
       fst (mark_payment_as_paid st unique_id) = None →
       snd (mark_payment_as_paid st unique_id) = st)
  ∧ (∀ st unique_id,
       fst (mark_payment_as_paid (snd (mark_payment_as_paid st unique_id)) unique_id)
       = None).
Proof.
  assert (∀ st unique_id id payment_link,
    get_payment_link st unique_id = Some (id, payment_link) →
    PaymentLink.paid payment_link = false →
    get_payment_link (snd (mark_payment_as_paid st unique_id)) unique_id
    = Some (id, with_paid payment_link)) as Hafter.
  { intros st unique_id id payment_link Hlink Hpaid.
    rewrite (mark_payment_as_paid_pending _ _ _ _ Hlink Hpaid). simpl.
    unfold get_payment_link in *. apply first_row_Some in Hlink as [i [-> Hfind]].
    rewrite row_id_position. apply first_row_Some. exists i. split; [done|]. simpl.
    by apply get_payment_link_after_mark. }
  assert (∀ st unique_id,
    (∃ id payment_link, get_payment_link st unique_id = Some (id, payment_link)
                        ∧ PaymentLink.paid payment_link = false)
    ∨ mark_payment_as_paid st unique_id = (None, st)) as Hcases.
  { intros st unique_id.
    destruct (get_payment_link st unique_id) as [[id l]|] eqn:Hlink.
    - destruct (PaymentLink.paid l) eqn:Hpaid; [|left; eauto].
      right. apply mark_payment_as_paid_refused. right. eauto.
    - right. apply mark_payment_as_paid_refused. by left. }
  split_and!.
  - intros self st unique_id net now id payment_link Hdb Hlink Hpaid.
    unfold check_payment. by rewrite Hdb, Hlink, Hpaid.
  - intros st unique_id. split.
    + destruct (Hcases st unique_id) as [? | ->]; [done|]. simpl. by intros ?%is_Some_None.
    + intros (id & l & Hlink & Hpaid).
      by rewrite (mark_payment_as_paid_pending _ _ _ _ Hlink Hpaid).
  - intros st unique_id id payment_link Hlink Hpaid marked. subst marked.
    split_and!; [|by apply Hafter|..];
      rewrite (mark_payment_as_paid_pending _ _ _ _ Hlink Hpaid); simpl; try done.
    intros other Hne. unfold get_payment_link in Hlink.
    apply first_row_Some in Hlink as [i [-> _]].
    rewrite row_id_position. by apply by_id_insert_other.
  - intros st unique_id.
    destruct (Hcases st unique_id) as [(id & l & Hlink & Hpaid) | ->]; [|done].
    by rewrite (mark_payment_as_paid_pending _ _ _ _ Hlink Hpaid).
  - intros st unique_id.
    destruct (Hcases st unique_id) as [(id & l & Hlink & Hpaid) | Hrefused].
    + rewrite mark_payment_as_paid_refused; [done|]. right.
      exists id, (with_paid l). split; [by apply Hafter|done].
    + rewrite Hrefused. simpl. by rewrite Hrefused.
Qed.

(** Once a donation is found, [check_payment] goes on with calls made on
    the class [DatabaseService], so it never reaches its last [return]. *)
Remark check_payment_never_succeeds self st unique_id net now user_id kind end_date st' :
  check_payment self st unique_id net now ≠ Ok (Success user_id kind end_date, st').
Proof.
  unfold check_payment. destruct (db_service self); [|done]. simpl.
  destruct (get_payment_link st unique_id) as [[id l]|]; [|done].
  destruct (PaymentLink.paid l); [done|].
  destruct (DonationAlertsClient.get_recent_donations _ _) as [payload|e]; [|done]. simpl.
  destruct (py_iter payload) as [items|e]; [|done]. simpl.
  by destruct (negb _).
Qed.

Example check_payment_on_paid_link :
  let st := set_payment_links empty [with_paid scenario_link] in
  let service := {| donation_alerts := {| DonationAlertsClient.api_key := Some "token" |};
                    base_url := "https://www.donationalerts.com/r/";
                    db_service := true |} in
  check_payment service st "abc123"
    (Response 200 (Some (PDict [("data", PList [scenario_donation "abc123" (650 # 1)])])))
    0
  = Ok (Failure PaymentAlreadyProcessed, st).
Proof. reflexivity. Qed.

Example mark_payment_as_paid_twice :
  let st := set_payment_links empty [scenario_link] in
  let first := mark_payment_as_paid st "abc123" in
  let second := mark_payment_as_paid (snd first) "abc123" in
  fst first = Some (with_paid scenario_link)
  ∧ payment_links (snd first) = [with_paid scenario_link]
  ∧ second = (None, snd first)
  ∧ mark_payment_as_paid st "zzz" = (None, st).
Proof. repeat split. Qed.

End Payments.

(** ** The donations client *)

Section Donations.
Import DonationAlertsClient.

(** A decoded body that is not an object never gets through the
    [try]: every path ends in the empty list. *)
Lemma not_an_object_gives_empty (self : t) (data : pyval) :
  (∀ kvs, data ≠ PDict kvs) →
  get_recent_donations self (Response 200 (Some data)) = Ok (PList []).
Proof.
  intros Hdata. unfold get_recent_donations.
  destruct (key_missing _); [done|].
  destruct data as [|b|q|s|items|kvs]; try reflexivity.
  - simpl. unfold mbind, result_bind.
    repeat (destruct (str_contains _ s); [reflexivity|]).
    unfold first_value. by destruct (truthy (PStr s)).
  - simpl. unfold mbind, result_bind.
    repeat (destruct (existsb _ items); [reflexivity|]).
    unfold first_value. by destruct (truthy (PList items)).
  - by destruct (Hdata kvs).
Qed.

(** C7. On a 200 response whose body is a JSON object the client
    returns the value under "data", else under "donations", else under
    "results", else the first value of the object, else (empty object)
    the empty list. A missing key, a failed request, another status or a
    body that does not decode give the empty list. *)
Theorem get_recent_donations_spec (self : t) :
  (key_missing (api_key self) = true →
   ∀ net, get_recent_donations self net = Ok (PList []))
  ∧ get_recent_donations self NetworkError = Ok (PList [])
  ∧ (∀ status json, status ≠ 200 →
       get_recent_donations self (Response status json) = Ok (PList []))
  ∧ (∀ status, get_recent_donations self (Response status None) = Ok (PList []))
  ∧ (key_missing (api_key self) = false →
     ∀ kvs,
       get_recent_donations self (Response 200 (Some (PDict kvs)))
       = Ok (match dict_lookup "data" kvs with
             | Some v => v
             | None =>
                 match dict_lookup "donations" kvs with
                 | Some v => v
                 | None =>
                     match dict_lookup "results" kvs with
                     | Some v => v
                     | None =>
                         match kvs with
                         | (_, v) :: _ => v
                         | [] => PList []
                         end
                     end
                 end
             end)).
Proof.
  unfold get_recent_donations. split_and!.
  - by intros ->.
  - by destruct (key_missing _).
  - intros status json Hne. destruct (key_missing _); [done|].
    by rewrite (proj2 (Z.eqb_neq _ _) Hne).
  - intros status. destruct (key_missing _); [done|]. by destruct (status =? 200).
  - intros -> kvs. simpl. unfold mbind, result_bind.
    destruct (dict_lookup "data" kvs); [done|].
    destruct (dict_lookup "donations" kvs); [done|].
    destruct (dict_lookup "results" kvs); [done|].
    by destruct kvs as [|[k v] kvs].
Qed.

Example donations_under_data :
  get_recent_donations {| api_key := Some "token" |}
    (Response 200 (Some (PDict [("links", PDict []); ("data", PList [PNum 1]);
                                ("results", PList [PNum 2])])))
  = Ok (PList [PNum 1]).
Proof. reflexivity. Qed.

Example donations_first_value :
  get_recent_donations {| api_key := Some "token" |}
    (Response 200 (Some (PDict [("items", PList [PNum 1]); ("meta", PNone)])))
  = Ok (PList [PNum 1]).
Proof. reflexivity. Qed.

Example donations_empty_object :
  get_recent_donations {| api_key := Some "token" |} (Response 200 (Some (PDict [])))
  = Ok (PList []).
Proof. reflexivity. Qed.

End Donations.

(** * Further properties *)

(** ** Users and payment links in the store *)

Section StoreRows.
Import DatabaseService.

Lemma first_row_app_l {A} (P : A → Prop) `{!∀ x, Decision (P x)} table more r :
  first_row P table = Some r → first_row P (table ++ more) = Some r.
Proof.
  destruct r as [id x]. rewrite !first_row_Some.
  intros [i [-> Hfind]]. exists i. split; [done|]. by apply list_find_app_l.
Qed.

Lemma first_row_snoc_miss {A} (P : A → Prop) `{!∀ x, Decision (P x)} table x :
  ¬ P x → first_row P (table ++ [x]) = first_row P table.
Proof.
  intros Hx. destruct (first_row P table) as [r|] eqn:Hr.
  - by apply first_row_app_l.
  - apply first_row_None. apply first_row_None in Hr.
    apply list_find_app_None. split; [done|].
    simpl. by rewrite decide_False.
Qed.

Lemma first_row_snoc_hit {A} (P : A → Prop) `{!∀ x, Decision (P x)} table x :
  first_row P table = None → P x →
  first_row P (table ++ [x]) = Some (row_id (length table), x).
Proof.
  intros Hnone%first_row_None Hx. apply first_row_Some.
  exists (length table). split; [done|].
  rewrite (list_find_app_r _ _ _ Hnone). simpl. by rewrite decide_True.
Qed.

(** Overwriting a row by one that answers [P] the same way does not
    move the first row that satisfies [P]. *)
Lemma first_row_insert_same {A} (P : A → Prop) `{!∀ x, Decision (P x)}
    table j old new id x :
  table !! j = Some old → (P old ↔ P new) →
  first_row P table = Some (id, x) →
  first_row P (<[j := new]> table)
  = Some (id, if decide (id = row_id j) then new else x).
Proof.
  intros Hold Hsame. rewrite !first_row_Some. intros [i [-> Hfind]].
  exists i. split; [done|].
  pose proof Hfind as (Hi & HPx & Hleast)%list_find_Some.
  apply list_find_insert_Some.
  destruct (decide (row_id i = row_id j)) as [Heq|Hne].
  - assert (i = j) as -> by (unfold row_id in Heq; lia).
    assert (old = x) as -> by congruence.
    right. left. split_and!; [done|done|by eapply lookup_lt_Some|by apply Hsame|done].
  - assert (i ≠ j) by congruence.
    destruct (decide (i < j)%nat); [left; split; [lia|done]|].
    right. right. left. split_and!; [lia| |done|].
    + rewrite <- Hsame. apply (Hleast j old); [done|lia].
    + intros z Hz. assert (z = old) as -> by congruence.
      apply (Hleast j old); [done|lia].
Qed.

Lemma first_row_insert_same_None {A} (P : A → Prop) `{!∀ x, Decision (P x)}
    table j old new :
  table !! j = Some old → (P old ↔ P new) →
  first_row P table = None → first_row P (<[j := new]> table) = None.
Proof.
  intros Hold Hsame Hnone%first_row_None. apply first_row_None.
  rewrite list_find_None in *. apply Forall_insert; [done|].
  rewrite <- Hsame. exact (Forall_lookup_1 (λ x, ¬ P x) _ _ _ Hnone Hold).
Qed.

(** X1. [get_or_create_user] returns the row that
    [get_user_by_telegram_id] then finds for the id; a second call, with
    whatever names, returns that same row and writes nothing; users
    with another Telegram id are found as before. *)
Theorem get_or_create_user_lookup
    (st : Store) (telegram_id : Z) (username first_name last_name : option string)
    (now : Z) :
  let created := get_or_create_user st telegram_id username first_name last_name now in
  get_user_by_telegram_id (snd created) telegram_id = Some (fst created)
  ∧ (∀ username' first_name' last_name' later,
       get_or_create_user (snd created) telegram_id username' first_name' last_name' later
       = created)
  ∧ (∀ other, other ≠ telegram_id →
       get_user_by_telegram_id (snd created) other = get_user_by_telegram_id st other)
  ∧ (get_user_by_telegram_id st telegram_id = None →
       User.trial_messages_left (snd (fst created)) = 3
       ∧ users (snd created) = users st ++ [snd (fst created)]).
Proof.
  intros created.
  assert (get_user_by_telegram_id (snd created) telegram_id = Some (fst created)) as Hfound.
  { subst created. unfold get_or_create_user.
    destruct (get_user_by_telegram_id st telegram_id) as [r|] eqn:Hr; [done|]. simpl.
    unfold get_user_by_telegram_id in *. simpl. by apply first_row_snoc_hit. }
  split; [done|]. split; [|split].
  - intros username' first_name' last_name' later.
    unfold get_or_create_user at 1. rewrite Hfound. by destruct created.
  - intros other Hne. subst created. unfold get_or_create_user.
    destruct (get_user_by_telegram_id st telegram_id) as [r|]; [done|]. simpl.
    unfold get_user_by_telegram_id. simpl. apply first_row_snoc_miss. simpl. congruence.
  - intros Hnone. subst created. unfold get_or_create_user. by rewrite Hnone.
Qed.

Lemma step_users_cases st o :
  users (step st o) = users st
  ∨ (∃ telegram_id u,
       get_user_by_telegram_id st telegram_id = None
       ∧ User.telegram_id u = telegram_id ∧ User.trial_messages_left u = 3
       ∧ users (step st o) = users st ++ [u])
  ∨ (∃ i u,
       users st !! i = Some u ∧ 0 < User.trial_messages_left u
       ∧ users (step st o)
         = <[i := with_trial u (User.trial_messages_left u - 1)]> (users st)).
Proof.
  destruct o; simpl; try (by left).
  - unfold get_or_create_user.
    destruct (get_user_by_telegram_id st telegram_id) as [r|] eqn:Hr; [by left|].
    right. left.
    exists telegram_id,
      {| User.telegram_id := telegram_id; User.username := username;
         User.first_name := first_name; User.last_name := last_name;
         User.registration_date := now; User.trial_messages_left := 3 |}.
    done.
  - unfold decrement_trial_message.
    destruct (by_id (users st) user_id) as [u|] eqn:Hu; [|by left].
    destruct (0 <? User.trial_messages_left u) eqn:Hpos; [|by left].
    right. right. apply by_id_Some in Hu as [i [-> Hi]].
    rewrite row_id_position. exists i, u. split; [done|].
    split; [by apply Z.ltb_lt|done].
  - left. apply commit_users. unfold create_payment_link.
    intros a st'. destruct (first_row _ _); [done|]. by intros [= <- <-].
  - left. unfold mark_payment_as_paid.
    destruct (first_row _ _) as [[id l]|]; [|done]. by destruct (negb _).
Qed.

(** X2. Whatever calls were made on the store, no two user rows carry
    the same Telegram id. *)
Theorem telegram_ids_stay_unique (ops : list op) :
  NoDup (User.telegram_id <$> users (run_ops ops)).
Proof.
  unfold run_ops.
  assert (NoDup (User.telegram_id <$> users empty)) as Hempty by constructor.
  revert Hempty. generalize empty.
  induction ops as [|o ops IH]; intros st Hst; simpl; [done|].
  apply IH. destruct (step_users_cases st o) as [->|[(tid & u & Hnone & Htid & _ & ->)
                                                   |(i & u & Hi & _ & ->)]]; [done| |].
  - rewrite fmap_app. simpl. apply NoDup_app. split; [done|].
    split; [|apply NoDup_singleton].
    intros x Hx ->%list_elem_of_singleton.
    apply list_elem_of_fmap in Hx as (u' & Hu' & Hin).
    unfold get_user_by_telegram_id in Hnone.
    apply first_row_None, list_find_None in Hnone.
    rewrite Forall_forall in Hnone. apply (Hnone u' Hin). congruence.
  - rewrite list_fmap_insert. simpl. rewrite list_insert_id; [done|].
    by rewrite list_lookup_fmap, Hi.
Qed.

(** X3. A user row is never deleted, its Telegram id never changes and
    its count of trial messages never grows, whatever calls follow. *)
Theorem trial_messages_never_replenished
    (st : Store) (ops : list op) (id : Z) (u : User.t) :
  by_id (users st) id = Some u →
  ∃ u', by_id (users (fold_left step ops st)) id = Some u'
        ∧ User.telegram_id u' = User.telegram_id u
        ∧ User.trial_messages_left u' ≤ User.trial_messages_left u.
Proof.
  revert st u. induction ops as [|o ops IH]; intros st u Hu; simpl.
  - exists u. split; [done|]. split; [done|lia].
  - assert (∃ u1, by_id (users (step st o)) id = Some u1
                  ∧ User.telegram_id u1 = User.telegram_id u
                  ∧ User.trial_messages_left u1 ≤ User.trial_messages_left u)
      as (u1 & Hu1 & Htid & Hle).
    { apply by_id_Some in Hu as [i [-> Hi]]. rewrite by_id_row_id.
      destruct (step_users_cases st o) as [->|[(tid & u0 & _ & _ & _ & ->)
                                            |(j & u0 & Hj & Hpos & ->)]].
      - exists u. split; [done|]. split; [done|lia].
      - exists u. split; [by apply lookup_app_l_Some|]. split; [done|lia].
      - destruct (decide (i = j)) as [->|Hne].
        + assert (u0 = u) as -> by congruence.
          eexists. split; [apply list_lookup_insert_eq; by eapply lookup_lt_Some|].
          simpl. split; [done|lia].
        + exists u. rewrite list_lookup_insert_ne by done.
          split; [done|]. split; [done|lia]. }
    destruct (IH _ _ Hu1) as (u' & Hu' & Htid' & Hle').
    exists u'. split; [done|]. split; [congruence|lia].
Qed.

Lemma trial_messages_never_replenished_witness :
  ∃ u', by_id (users (fold_left step
                        [DecrementTrialMessage 1; GetOrCreateUser 77 None None None 5;
                         DecrementTrialMessage 1]
                        (snd Scenario.lifecycle_user))) 1 = Some u'
        ∧ User.telegram_id u' = User.telegram_id (snd (fst Scenario.lifecycle_user))
        ∧ User.trial_messages_left u'
          ≤ User.trial_messages_left (snd (fst Scenario.lifecycle_user)).
Proof.
  apply (trial_messages_never_replenished (snd Scenario.lifecycle_user)
           [DecrementTrialMessage 1; GetOrCreateUser 77 None None None 5;
            DecrementTrialMessage 1]
           1 (snd (fst Scenario.lifecycle_user))).
  reflexivity.
Defined.

Lemma create_payment_link_fresh st telegram_user_id subscription_type amount uuid now :
  get_payment_link st uuid = None →
  let l := new_link telegram_user_id subscription_type amount uuid now in
  create_payment_link st telegram_user_id subscription_type amount uuid now
  = Ok (l, set_payment_links st (payment_links st ++ [l]))
  ∧ get_payment_link (set_payment_links st (payment_links st ++ [l])) uuid
    = Some (row_id (length (payment_links st)), l).
Proof.
  unfold get_payment_link, create_payment_link. intros Hnone. rewrite Hnone.
  split; [done|]. simpl. by apply first_row_snoc_hit.
Qed.

(** X4. The store's [create_payment_link] with an id no link carries
    stores a pending link that [get_payment_link] then returns under
    that id, and leaves the lookup of every other id as it was; with an
    id already in use it raises [IntegrityError]. *)
Theorem create_payment_link_lookup
    (st : Store) (telegram_user_id : Z) (subscription_type : string) (amount : Q)
    (uuid : string) (now : Z) :
  (get_payment_link st uuid = None →
   ∃ payment_link st',
     create_payment_link st telegram_user_id subscription_type amount uuid now
     = Ok (payment_link, st')
     ∧ get_payment_link st' uuid
       = Some (row_id (length (payment_links st)), payment_link)
     ∧ PaymentLink.paid payment_link = false
     ∧ PaymentLink.amount payment_link = amount
     ∧ PaymentLink.telegram_user_id payment_link = telegram_user_id
     ∧ PaymentLink.subscription_type payment_link = subscription_type
     ∧ (∀ other, other ≠ uuid → get_payment_link st' other = get_payment_link st other)
     ∧ users st' = users st ∧ subscriptions st' = subscriptions st)
  ∧ (is_Some (get_payment_link st uuid) →
     create_payment_link st telegram_user_id subscription_type amount uuid now
     = Raise IntegrityError).
Proof.
  split.
  - intros Hnone.
    destruct (create_payment_link_fresh st telegram_user_id subscription_type amount
                uuid now Hnone) as [Hcreate Hget].
    eexists _, _. split; [exact Hcreate|]. split; [exact Hget|].
    split_and!; try done.
    intros other Hne. unfold get_payment_link. simpl.
    apply first_row_snoc_miss. simpl. congruence.
  - unfold get_payment_link, create_payment_link. by intros [r ->].
Qed.

Lemma step_links_cases st o :
  payment_links (step st o) = payment_links st
  ∨ (∃ l, get_payment_link st (PaymentLink.unique_id l) = None
          ∧ payment_links (step st o) = payment_links st ++ [l])
  ∨ (∃ i l, payment_links st !! i = Some l
            ∧ payment_links (step st o) = <[i := with_paid l]> (payment_links st)).
Proof.
  destruct o; simpl; try (by left).
  - left. unfold get_or_create_user. by destruct (get_user_by_telegram_id _ _).
  - left. unfold decrement_trial_message.
    destruct (by_id _ _) as [u|]; [|done]. by destruct (0 <? _).
  - unfold create_payment_link.
    destruct (first_row _ (payment_links st)) as [r|] eqn:Hr; [by left|].
    right. left. eexists. split; [|reflexivity]. done.
  - unfold mark_payment_as_paid.
    destruct (first_row _ (payment_links st)) as [[id l]|] eqn:Hr; [|by left].
    destruct (negb (PaymentLink.paid l)); [|by left].
    right. right. apply first_row_Some in Hr as [i [-> Hfind]].
    apply list_find_Some in Hfind as (Hi & _ & _).
    rewrite row_id_position. by exists i, l.
Qed.

(** X5. Whatever calls were made on the store, no two payment links
    carry the same [unique_id]. *)
Theorem unique_ids_stay_unique (ops : list op) :
  NoDup (PaymentLink.unique_id <$> payment_links (run_ops ops)).
Proof.
  unfold run_ops.
  assert (NoDup (PaymentLink.unique_id <$> payment_links empty)) as Hempty by constructor.
  revert Hempty. generalize empty.
  induction ops as [|o ops IH]; intros st Hst; simpl; [done|].
  apply IH. destruct (step_links_cases st o) as [->|[(l & Hnone & ->)|(i & l & Hi & ->)]];
    [done| |].
  - rewrite fmap_app. simpl. apply NoDup_app. split; [done|].
    split; [|apply NoDup_singleton].
    intros x Hx ->%list_elem_of_singleton.
    apply list_elem_of_fmap in Hx as (l' & Hl' & Hin).
    unfold get_payment_link in Hnone.
    apply first_row_None, list_find_None in Hnone.
    rewrite Forall_forall in Hnone. apply (Hnone l' Hin). congruence.
  - rewrite list_fmap_insert. simpl. rewrite list_insert_id; [done|].
    by rewrite list_lookup_fmap, Hi.
Qed.

(** X6. A payment link, once stored, is found under its id after any
    further calls, at the same row, with the same owner, type and
    amount; and once it is paid it stays paid. *)
Theorem payment_link_never_unpaid
    (st : Store) (ops : list op) (unique_id : string) (id : Z) (l : PaymentLink.t) :
  get_payment_link st unique_id = Some (id, l) →
  ∃ l', get_payment_link (fold_left step ops st) unique_id = Some (id, l')
        ∧ PaymentLink.telegram_user_id l' = PaymentLink.telegram_user_id l
        ∧ PaymentLink.subscription_type l' = PaymentLink.subscription_type l
        ∧ PaymentLink.amount l' = PaymentLink.amount l
        ∧ (PaymentLink.paid l = true → PaymentLink.paid l' = true).
Proof.
  revert st l. induction ops as [|o ops IH]; intros st l Hl; simpl.
  - by exists l.
  - assert (∃ l1, get_payment_link (step st o) unique_id = Some (id, l1)
                  ∧ PaymentLink.telegram_user_id l1 = PaymentLink.telegram_user_id l
                  ∧ PaymentLink.subscription_type l1 = PaymentLink.subscription_type l
                  ∧ PaymentLink.amount l1 = PaymentLink.amount l
                  ∧ (PaymentLink.paid l = true → PaymentLink.paid l1 = true))
      as (l1 & Hl1 & Howner & Htype & Hamount & Hpaid).
    { unfold get_payment_link in *.
      destruct (step_links_cases st o) as [->|[(l0 & _ & ->)|(i & l0 & Hi & ->)]].
      - by exists l.
      - exists l. split; [by apply first_row_app_l|done].
      - rewrite (first_row_insert_same _ _ i l0 (with_paid l0) id l Hi); [|done|done].
        destruct (decide (id = row_id i)) as [->|Hne]; [|by exists l].
        exists (with_paid l0). split; [done|].
        apply first_row_Some in Hl as [i' [Heq Hfind]].
        assert (i' = i) as -> by (unfold row_id in Heq; lia).
        apply list_find_Some in Hfind as (Hi' & _ & _).
        assert (l0 = l) as -> by congruence. done. }
    destruct (IH _ _ Hl1) as (l' & Hl' & Howner' & Htype' & Hamount' & Hpaid').
    exists l'. split; [done|]. split_and!; [congruence..|auto].
Qed.

Lemma payment_link_never_unpaid_witness :
  ∃ l', get_payment_link
          (fold_left step
             [MarkPaymentAsPaid "abc123";
              CreatePaymentLink 7 "month" (2500 # 1) "ffff000011" 9;
              MarkPaymentAsPaid "ffff000011"; DecrementTrialMessage 1]
             (set_payment_links empty [with_paid Scenario.scenario_link]))
          "abc123" = Some (1, l')
        ∧ PaymentLink.telegram_user_id l'
          = PaymentLink.telegram_user_id (with_paid Scenario.scenario_link)
        ∧ PaymentLink.subscription_type l'
          = PaymentLink.subscription_type (with_paid Scenario.scenario_link)
        ∧ PaymentLink.amount l' = PaymentLink.amount (with_paid Scenario.scenario_link)
        ∧ (PaymentLink.paid (with_paid Scenario.scenario_link) = true →
           PaymentLink.paid l' = true).
Proof.
  apply (payment_link_never_unpaid
           (set_payment_links empty [with_paid Scenario.scenario_link])
           [MarkPaymentAsPaid "abc123";
            CreatePaymentLink 7 "month" (2500 # 1) "ffff000011" 9;
            MarkPaymentAsPaid "ffff000011"; DecrementTrialMessage 1]
           "abc123" 1 (with_paid Scenario.scenario_link)).
  reflexivity.
Defined.

End StoreRows.

(** ** Subscriptions over time *)

Section SubscriptionWindow.
Import DatabaseService.

Lemma has_active_subscription_snoc st user_id s t :
  has_active_subscription (set_subscriptions st (subscriptions st ++ [s])) user_id t
  = has_active_subscription st user_id t
    || bool_decide (Subscription.user_id s = user_id ∧ t ≤ Subscription.end_date s).
Proof.
  apply eq_true_iff_eq.
  rewrite orb_true_iff, !has_active_subscription_true, bool_decide_eq_true. simpl.
  split.
  - intros (s' & [Hin | ->%list_elem_of_singleton]%elem_of_app & Hu & Ht); [left|right]; eauto.
  - intros [(s' & Hin & Hu & Ht) | [Hu Ht]].
    + exists s'. split; [apply elem_of_app; by left|done].
    + exists s. split; [apply elem_of_app; right; by apply list_elem_of_singleton|done].
Qed.

(** X7. After [create_subscription] a user is active at a time exactly
    when they were active before or the time is not past the new end
    date; other users are unaffected. The end date is 7 days after the
    purchase for "week" and for any unlisted type, 14 days for
    "two_weeks" and 31 days for "month". *)
Theorem create_subscription_window
    (st : Store) (user_id : Z) (subscription_type : string) (amount : Q)
    (payment_id : string) (now : Z) :
  let created := create_subscription st user_id subscription_type amount payment_id now in
  (∀ t, has_active_subscription (snd created) user_id t
        = has_active_subscription st user_id t
          || (t <=? Subscription.end_date (fst created)))
  ∧ (∀ other t, other ≠ user_id →
       has_active_subscription (snd created) other t = has_active_subscription st other t)
  ∧ (subscription_type = "two_weeks" →
       Subscription.end_date (fst created) = now + days 14)
  ∧ (subscription_type = "month" →
       Subscription.end_date (fst created) = now + days 31)
  ∧ (subscription_type ≠ "two_weeks" → subscription_type ≠ "month" →
       Subscription.end_date (fst created) = now + days 7).
Proof.
  intros created. subst created. split; [|split].
  - intros t. unfold create_subscription. cbn [fst snd].
    rewrite has_active_subscription_snoc. f_equal. cbn [Subscription.user_id Subscription.end_date].
    apply eq_true_iff_eq. rewrite bool_decide_eq_true, Z.leb_le. tauto.
  - intros other t Hne. unfold create_subscription. cbn [fst snd].
    rewrite has_active_subscription_snoc. cbn [Subscription.user_id].
    rewrite bool_decide_eq_false_2; [apply orb_false_r|]. intros [? _]. congruence.
  - unfold create_subscription. cbn [fst Subscription.end_date]. split_and!.
    + intros ->. reflexivity.
    + intros ->. reflexivity.
    + intros H2%String.eqb_neq Hm%String.eqb_neq. rewrite H2, Hm.
      by destruct (String.eqb subscription_type "week").
Qed.

Lemma step_subscriptions_cases st o :
  subscriptions (step st o) = subscriptions st
  ∨ ∃ s, step st o = set_subscriptions st (subscriptions st ++ [s]).
Proof.
  destruct o; simpl; try (by left).
  - left. unfold get_or_create_user. by destruct (get_user_by_telegram_id _ _).
  - left. unfold decrement_trial_message.
    destruct (by_id _ _) as [u|]; [|done]. by destruct (0 <? _).
  - left. unfold create_payment_link. by destruct (first_row _ _).
  - left. unfold mark_payment_as_paid.
    destruct (first_row _ _) as [[id l]|]; [|done]. by destruct (negb _).
  - right. eauto.
Qed.

Lemma has_active_subscription_same_rows st st' user_id t :
  subscriptions st' = subscriptions st →
  has_active_subscription st' user_id t = has_active_subscription st user_id t.
Proof. unfold has_active_subscription. by intros ->. Qed.

(** X8. No call on the store ends a subscription: a user who is active
    at some time is active at that time, and at every earlier one,
    after any further calls. *)
Theorem subscription_never_ended
    (st : Store) (ops : list op) (user_id t earlier : Z) :
  earlier ≤ t →
  has_active_subscription st user_id t = true →
  has_active_subscription (fold_left step ops st) user_id earlier = true.
Proof.
  intros Hle. revert st. induction ops as [|o ops IH]; intros st Hactive; simpl.
  - apply has_active_subscription_true in Hactive as (s & Hin & Hu & Ht).
    apply has_active_subscription_true. exists s. split; [done|]. split; [done|lia].
  - apply IH. destruct (step_subscriptions_cases st o) as [Hsame|[s ->]].
    + by rewrite (has_active_subscription_same_rows _ _ _ _ Hsame).
    + by rewrite has_active_subscription_snoc, Hactive.
Qed.

Lemma subscription_never_ended_witness :
  has_active_subscription
    (fold_left step
       [RevokeSubscription "alice" (seconds 2000); DecrementTrialMessage 1;
        CreateSubscription 1 "month" (2500 # 1) "ffff000011" (seconds 3000)]
       (Scenario.lifecycle_subscribed (seconds 1000)))
    1 (seconds 1500) = true.
Proof.
  apply (subscription_never_ended (Scenario.lifecycle_subscribed (seconds 1000))
           [RevokeSubscription "alice" (seconds 2000); DecrementTrialMessage 1;
            CreateSubscription 1 "month" (2500 # 1) "ffff000011" (seconds 3000)]
           1 (seconds 2000) (seconds 1500)).
  - vm_compute. discriminate.
  - vm_compute. reflexivity.
Defined.

End SubscriptionWindow.

(** ** The donations client under any response *)

Section DonationsClient.
Import DonationAlertsClient.

Lemma get_recent_donations_total (self : t) (net : http_outcome) :
  ∃ v, get_recent_donations self net = Ok v.
Proof.
  unfold get_recent_donations. destruct (key_missing _); [eauto|].
  unfold try_except. destruct (match net with NetworkError => _ | _ => _ end); eauto.
Qed.

(** X12. [get_recent_donations] returns a value whatever the key and
    the HTTP exchange; a decoded body that is not a JSON object (a
    list, a string, a number, [null]) gives the empty list. *)
Theorem get_recent_donations_never_raises (self : t) (net : http_outcome) :
  (∃ v, get_recent_donations self net = Ok v)
  ∧ (∀ data, (∀ kvs, data ≠ PDict kvs) →
       get_recent_donations self (Response 200 (Some data)) = Ok (PList [])).
Proof.
  split; [apply get_recent_donations_total|].
  intros data Hdata. by apply not_an_object_gives_empty.
Qed.

End DonationsClient.

(** ** Payment links from request to confirmation *)

Section PaymentLinks.
Context `{Builtins}.
Import DatabaseService PaymentService.

Lemma price_zero_iff subscription_type :
  get_subscription_price subscription_type = 0 ↔ ¬ tariff subscription_type.
Proof.
  unfold get_subscription_price, tariff.
  destruct (String.eqb subscription_type "week") eqn:Hw.
  { apply String.eqb_eq in Hw. split; [done|]. intros Hno. destruct Hno. by left. }
  destruct (String.eqb subscription_type "two_weeks") eqn:H2.
  { apply String.eqb_eq in H2. split; [done|]. intros Hno. destruct Hno. right. by left. }
  destruct (String.eqb subscription_type "month") eqn:Hm.
  { apply String.eqb_eq in Hm. split; [done|]. intros Hno. destruct Hno. right. by right. }
  apply String.eqb_neq in Hw, H2, Hm. split; [|done]. intros _ [?|[?|?]]; done.
Qed.

(** X9. [PaymentService.create_payment_link] returns [None] exactly for
    a type that is not one of the three tariffs, and then never reaches
    the store. For a tariff, on a configured service and with an id no
    link carries, it stores a pending link owned by the caller for the
    tariff's price, and the dict it returns carries that id, that price,
    and the URL [base_url?message=<id>&amount=<price>]; the discount it
    quotes is below the price. *)
Theorem payment_service_create_payment_link
    (self : PaymentService.t) (st : Store) (telegram_user_id : Z)
    (subscription_type uuid : string) (now : Z) :
  (PaymentService.create_payment_link self st telegram_user_id subscription_type uuid now
   = NoLink ↔ ¬ tariff subscription_type)
  ∧ (tariff subscription_type →
     db_service self = true →
     get_payment_link st uuid = None →
     ∃ payment_link st',
       PaymentService.create_payment_link self st telegram_user_id subscription_type
         uuid now
       = LinkInfo
           {| PaymentInfo.unique_id := uuid;
              PaymentInfo.payment_url :=
                base_url self +:+ "?message=" +:+ uuid +:+ "&amount="
                  +:+ pretty (get_subscription_price subscription_type);
              PaymentInfo.amount := get_subscription_price subscription_type;
              PaymentInfo.subscription_type := subscription_type;
              PaymentInfo.discount := get_subscription_discount subscription_type |}
           st'
       ∧ get_payment_link st' uuid
         = Some (row_id (length (payment_links st)), payment_link)
       ∧ PaymentLink.paid payment_link = false
       ∧ PaymentLink.telegram_user_id payment_link = telegram_user_id
       ∧ PaymentLink.subscription_type payment_link = subscription_type
       ∧ PaymentLink.amount payment_link
         = inject_Z (get_subscription_price subscription_type)
       ∧ 0 ≤ get_subscription_discount subscription_type
           < get_subscription_price subscription_type).
Proof.
  split.
  - rewrite <- price_zero_iff. unfold PaymentService.create_payment_link.
    destruct (get_subscription_price subscription_type =? 0) eqn:Hp.
    { apply Z.eqb_eq in Hp. done. }
    apply Z.eqb_neq in Hp. split; [|done].
    destruct (negb (db_service self)); [done|].
    by destruct (DatabaseService.create_payment_link _ _ _ _ _ _) as [[l st']|e].
  - intros Htariff Hdb Hfresh.
    assert (get_subscription_price subscription_type ≠ 0) as Hp.
    { intros Hz%price_zero_iff. done. }
    destruct (create_payment_link_fresh st telegram_user_id subscription_type
                (inject_Z (get_subscription_price subscription_type)) uuid now Hfresh)
      as [Heq Hget].
    eexists _, _. unfold PaymentService.create_payment_link.
    rewrite (proj2 (Z.eqb_neq _ _) Hp), Hdb, Heq. simpl.
    split_and!; try done.
    + destruct Htariff as [-> | [-> | ->]]; done.
    + destruct Htariff as [-> | [-> | ->]]; done.
Qed.

Lemma price_below_two_53 subscription_type :
  Z.abs (get_subscription_price subscription_type) < two_53.
Proof.
  unfold get_subscription_price.
  by repeat (destruct (String.eqb subscription_type _)).
Qed.

(** X10. Take the link that [PaymentService.create_payment_link] has
    just stored and any donation whose message contains the quoted id.
    The loop of [check_payment] finds the donation exactly when
    [float()] accepts its amount and makes of it at least the amount
    quoted in the returned dict; when the amount is a number that
    [float()] accepts, that is exactly when the number itself is at
    least the quoted amount. *)
Theorem donation_for_created_link
    (self : PaymentService.t) (st st' : Store) (telegram_user_id : Z)
    (subscription_type uuid : string) (now : Z) (info : PaymentInfo.t) :
  PaymentService.create_payment_link self st telegram_user_id subscription_type uuid now
  = LinkInfo info st' →
  ∃ id payment_link,
    get_payment_link st' (PaymentInfo.unique_id info) = Some (id, payment_link)
    ∧ PaymentLink.paid payment_link = false
    ∧ ∀ donation message,
        py_get donation "message" (PStr "") = Ok message →
        is_substring (PaymentInfo.unique_id info) (py_str message) →
        (find_donation payment_link [donation] = Some donation
         ↔ ∃ v paid,
             py_get donation "amount" (PNum 0) = Ok v
             ∧ py_float v = Ok paid
             ∧ (inject_Z (PaymentInfo.amount info) <= paid)%Q)
        ∧ (∀ amount paid,
             py_get donation "amount" (PNum 0) = Ok (PNum amount) →
             py_float (PNum amount) = Ok paid →
             (find_donation payment_link [donation] = Some donation
              ↔ (inject_Z (PaymentInfo.amount info) <= amount)%Q)).
Proof.
  unfold PaymentService.create_payment_link.
  destruct (get_subscription_price subscription_type =? 0); [done|].
  destruct (negb (db_service self)); [done|].
  destruct (DatabaseService.create_payment_link _ _ _ _ _ _) as [[l st1]|e] eqn:Hcreate;
    [|done].
  intros [= <- <-]. simpl.
  assert (get_payment_link st uuid = None) as Hfresh.
  { unfold DatabaseService.create_payment_link, get_payment_link in *.
    by destruct (first_row _ _). }
  destruct (create_payment_link_fresh st telegram_user_id subscription_type
              (inject_Z (get_subscription_price subscription_type)) uuid now Hfresh)
    as [Heq Hget].
  rewrite Hcreate in Heq. injection Heq as Hl Hst. rewrite <- Hst, <- Hl in Hget.
  assert (PaymentLink.unique_id l = uuid) as Hid by (by rewrite Hl).
  assert (PaymentLink.amount l = inject_Z (get_subscription_price subscription_type))
    as Hamount by (by rewrite Hl).
  assert (PaymentLink.paid l = false) as Hpaid by (by rewrite Hl).
  clear Hl Hst.
  rewrite Hid. eexists _, l. split; [done|]. split; [done|].
  intros donation message Hmessage Hsub.
  assert (find_donation l [donation] = Some donation
          ↔ ∃ v paid,
              py_get donation "amount" (PNum 0) = Ok v
              ∧ py_float v = Ok paid
              ∧ (inject_Z (get_subscription_price subscription_type) <= paid)%Q)
    as Hfound.
  { transitivity (donation_matches l donation = Ok true).
    { simpl. destruct (donation_matches l donation) as [[|]|e']; split; done. }
    rewrite donation_matches_iff. unfold meets_link. rewrite Hid, Hamount. split.
    - intros (? & v & paid & _ & _ & Hv & Hf & Hle). eauto.
    - intros (v & paid & Hv & Hf & Hle). by exists message, v, paid. }
  split; [done|].
  intros amount paid Hamount' Hfloat. rewrite Hfound.
  pose proof (py_float_num_le amount paid _ (price_below_two_53 subscription_type) Hfloat)
    as Hle.
  split.
  - intros (v & paid' & Hv & Hf & Hle'). rewrite Hamount' in Hv. injection Hv as <-.
    assert (Ok paid' = Ok paid) as [= ->] by (rewrite <- Hf; exact Hfloat).
    by apply Hle.
  - intros Hle'. exists (PNum amount), paid. split_and!; [done..|]. by apply Hle.
Qed.

Lemma py_iter_raises_TypeError (v : pyval) (e : exn) :
  py_iter v = Raise e → e = TypeError.
Proof. destruct v; simpl; congruence. Qed.

(** X11. On a configured service [check_payment] either returns a
    failure, with the store as it found it, or raises [TypeError]; it
    never returns a success and never writes. *)
Theorem check_payment_fails_or_raises
    (self : PaymentService.t) (st : Store) (unique_id : string) (net : http_outcome)
    (now : Z) :
  db_service self = true →
  (∃ why, check_payment self st unique_id net now = Ok (Failure why, st))
  ∨ check_payment self st unique_id net now = Raise TypeError.
Proof.
  intros Hdb. unfold check_payment. rewrite Hdb. simpl.
  destruct (get_payment_link st unique_id) as [[id l]|]; [|eauto].
  destruct (PaymentLink.paid l); [eauto|].
  destruct (DonationAlertsClient.get_recent_donations _ _) as [payload|e] eqn:Hpayload.
  2: { destruct (get_recent_donations_total (donation_alerts self) net) as [v Hv].
       congruence. }
  simpl. destruct (py_iter payload) as [items|e] eqn:Hiter; simpl.
  - destruct (negb _); eauto.
  - right. by rewrite (py_iter_raises_TypeError _ _ Hiter).
Qed.

(** X13. For a pending link with a non-empty id, [check_payment] raises
    [TypeError] in exactly two cases: what the donations client handed
    back cannot be iterated (a number, a boolean, [null], for instance
    the body [{"data": null}]), or some donation matches the link (the
    call that should mark the link paid is made on the class). *)
Theorem check_payment_raises_iff
    (self : PaymentService.t) (st : Store) (unique_id : string) (net : http_outcome)
    (now id : Z) (payment_link : PaymentLink.t) (payload : pyval) :
  db_service self = true →
  get_payment_link st unique_id = Some (id, payment_link) →
  PaymentLink.paid payment_link = false →
  unique_id ≠ "" →
  DonationAlertsClient.get_recent_donations (donation_alerts self) net = Ok payload →
  (check_payment self st unique_id net now = Raise TypeError ↔
   match py_iter payload with
   | Raise _ => True
   | Ok donations => ∃ d, d ∈ donations ∧ meets_link payment_link d
   end).
Proof.
  intros Hdb Hlink Hpaid Hid Hpayload.
  assert (PaymentLink.unique_id payment_link = unique_id) as Hsame.
  { unfold get_payment_link in Hlink.
    apply first_row_Some in Hlink as [i [_ Hfind]].
    by apply list_find_Some in Hfind as (_ & ? & _). }
  unfold check_payment. rewrite Hdb, Hlink, Hpaid, Hpayload. simpl.
  destruct (py_iter payload) as [donations|e] eqn:Hiter; simpl.
  - rewrite <- find_donation_is_Some.
    destruct (find_donation payment_link donations) as [d|] eqn:Hfind; simpl.
    + apply find_donation_Some in Hfind as [_ Hm].
      rewrite (matching_donation_truthy payment_link d); [|congruence|done]. done.
    + split; [done|]. by intros ?%is_Some_None.
  - by rewrite (py_iter_raises_TypeError _ _ Hiter).
Qed.

End PaymentLinks.

(** ** The cache and the filter on unexpected payloads *)

Section Payloads.
Context `{Builtins}.
Import MatchService.

(** X14. When the stored value is not fresh and the client answers with
    a non-empty value, [fetch_matches] returns that value and stores it
    with the current time; every call during the following [cache_ttl]
    seconds returns it again without asking the client, whatever the
    provider would answer. *)
Theorem refresh_then_serve
    (self : t) (now later : Z) (net net' : http_outcome) (v : pyval) :
  fresh self now = false →
  FootballApiClient.fetch_matches (api_client self) net = Ok v →
  truthy v = true →
  later - now < seconds (cache_ttl self) →
  ∃ r, fetch_matches self now net = Ok r
       ∧ returned r = v
       ∧ from_client r = Some v
       ∧ cache (after r) = v
       ∧ last_update (after r) = Some now
       ∧ cache_ttl (after r) = cache_ttl self
       ∧ api_client (after r) = api_client self
       ∧ fetch_matches (after r) later net'
         = Ok {| returned := v; after := after r; from_client := None |}.
Proof.
  intros Hstale Hclient Hv Hlater. unfold fetch_matches at 1.
  rewrite Hstale, Hclient. simpl. rewrite Hv. eexists. split; [reflexivity|]. simpl.
  split_and!; try done.
  unfold fetch_matches, fresh. simpl. by rewrite (proj2 (Z.ltb_lt _ _) Hlater).
Qed.

Lemma refresh_then_serve_witness :
  ∃ r, fetch_matches (init Scenario.client 600) 0 (Response 200 (Some Scenario.one_match))
       = Ok r
       ∧ returned r = Scenario.one_match
       ∧ from_client r = Some Scenario.one_match
       ∧ cache (after r) = Scenario.one_match
       ∧ last_update (after r) = Some 0
       ∧ cache_ttl (after r) = cache_ttl (init Scenario.client 600)
       ∧ api_client (after r) = api_client (init Scenario.client 600)
       ∧ fetch_matches (after r) (seconds 599) (Response 200 (Some (PList [PNum 1])))
         = Ok {| returned := Scenario.one_match; after := after r; from_client := None |}.
Proof.
  apply (refresh_then_serve (init Scenario.client 600) 0 (seconds 599)
           (Response 200 (Some Scenario.one_match))
           (Response 200 (Some (PList [PNum 1]))) Scenario.one_match);
    reflexivity.
Defined.

Lemma kept_is_object min_odds max_odds m :
  kept min_odds max_odds m = true → ∃ kvs, m = PDict kvs.
Proof.
  unfold kept, odds_in_range. destruct m; simpl; try done. eauto.
Qed.

Lemma filter_none_kept min_odds max_odds items :
  Forall (λ m, kept min_odds max_odds m = false) items →
  filter_matches min_odds max_odds items = [].
Proof.
  rewrite filter_matches_filter. induction 1 as [|m items Hm _ IH]; simpl; [done|].
  by rewrite Hm.
Qed.

(** X15. The filter keeps nothing but JSON objects. In particular, when
    what [fetch_matches] returns is itself an object (an error body, for
    instance) or a string, [check_for_matches_with_target_odds] returns
    the empty list, for every pair of bounds. *)
Theorem only_objects_are_kept (min_odds max_odds : Q) :
  (∀ matches m, m ∈ filter_matches min_odds max_odds matches → ∃ kvs, m = PDict kvs)
  ∧ (∀ self now net r,
       fetch_matches self now net = Ok r →
       (∃ kvs, returned r = PDict kvs) ∨ (∃ s, returned r = PStr s) →
       check_for_matches_with_target_odds self now net min_odds max_odds
       = Ok ([], after r)).
Proof.
  split.
  - intros matches m. rewrite filter_matches_filter, list_elem_of_In, filter_In.
    intros [_ Hkept]. by eapply kept_is_object.
  - intros self now net r Hr Hshape. unfold check_for_matches_with_target_odds.
    rewrite Hr. simpl.
    assert (∃ items, py_iter (returned r) = Ok items
                     ∧ Forall (λ m, kept min_odds max_odds m = false) items)
      as (items & -> & Hnone).
    { destruct Hshape as [[kvs ->]|[s ->]]; simpl; eexists; (split; [reflexivity|]).
      - apply Forall_forall. intros m (kv & -> & _)%list_elem_of_fmap. done.
      - induction s as [|c s IH]; simpl; by constructor. }
    simpl. by rewrite filter_none_kept.
Qed.

(** A record that has neither key. *)
Definition without_odds (m : pyval) : Prop :=
  ∀ kvs, m = PDict kvs →
         dict_lookup "odds_1" kvs = None ∧ dict_lookup "odds_2" kvs = None.

(** X16. A record with neither an "odds_1" nor an "odds_2" key is
    tested as if both odds were 0: it is kept exactly when 0 lies
    between the bounds. With the default bounds a list of such records
    (the shape of the feed's own records, which carry no such keys) is
    filtered to the empty list. *)
Theorem records_without_odds (matches : list pyval) :
  Forall without_odds matches →
  filter_matches default_min_odds default_max_odds matches = []
  ∧ ∀ min_odds max_odds kvs,
      PDict kvs ∈ matches →
      kept min_odds max_odds (PDict kvs) = Qle_bool min_odds 0 && Qle_bool 0 max_odds.
Proof.
  intros Hall. split.
  - apply filter_none_kept. eapply Forall_impl; [exact Hall|].
    intros m Hm. destruct (kept default_min_odds default_max_odds m) eqn:Hkept; [|done].
    destruct (kept_is_object _ _ _ Hkept) as [kvs ->].
    destruct (Hm kvs eq_refl) as [H1 H2].
    revert Hkept. unfold kept, odds_in_range. simpl. by rewrite H1, H2.
  - intros min_odds max_odds kvs Hin.
    rewrite Forall_forall in Hall. destruct (Hall _ Hin kvs eq_refl) as [H1 H2].
    unfold kept, odds_in_range. simpl. rewrite H1, H2. simpl.
    change (inject_Z (nearest_double (0 `div` 1))) with 0%Q.
    by destruct (Qle_bool min_odds 0 && Qle_bool 0 max_odds).
Qed.

(** X17. When the client answers 200 with a JSON number other than 0,
    or with [true], [fetch_matches] stores it like any non-empty value;
    [check_for_matches_with_target_odds] then raises [TypeError] at that
    call and at every call during the following [cache_ttl] seconds. *)
Theorem scalar_answer_poisons_cache
    (self : t) (now later : Z) (net net' : http_outcome) (v : pyval)
    (min_odds max_odds : Q) :
  fresh self now = false →
  FootballApiClient.fetch_matches (api_client self) net = Ok v →
  truthy v = true →
  py_iter v = Raise TypeError →
  later - now < seconds (cache_ttl self) →
  check_for_matches_with_target_odds self now net min_odds max_odds = Raise TypeError
  ∧ ∃ r, fetch_matches self now net = Ok r
         ∧ check_for_matches_with_target_odds (after r) later net' min_odds max_odds
           = Raise TypeError.
Proof.
  intros Hstale Hclient Hv Hiter Hlater.
  unfold check_for_matches_with_target_odds.
  unfold fetch_matches at 1 2. rewrite Hstale, Hclient. simpl. rewrite Hv. simpl.
  rewrite Hiter. split; [done|]. eexists. split; [reflexivity|]. simpl.
  unfold fetch_matches, fresh. simpl. rewrite (proj2 (Z.ltb_lt _ _) Hlater). simpl.
  by rewrite Hiter.
Qed.

End Payloads.

(** ** The "find matches" handler *)

Section FindMatches.
Context `{Builtins}.
Import DatabaseService Bot.

Lemma get_user_by_telegram_id_row st telegram_id id u :
  get_user_by_telegram_id st telegram_id = Some (id, u) →
  by_id (users st) id = Some u ∧ User.telegram_id u = telegram_id.
Proof.
  unfold get_user_by_telegram_id. intros [i [-> Hfind]]%first_row_Some.
  apply list_find_Some in Hfind as (Hi & Htid & _). by rewrite by_id_row_id.
Qed.

(** X18. A Telegram id with no user row is not subscribed. Once
    [get_or_create_user] has registered it, it is subscribed at every
    time, by its trial messages alone. A user whose trial messages are
    used up is subscribed exactly while [has_active_subscription]
    holds. *)
Theorem is_user_subscribed_cases (st : Store) (telegram_id now : Z) :
  (get_user_by_telegram_id st telegram_id = None →
   is_user_subscribed st telegram_id now = false
   ∧ ∀ username first_name last_name registered,
       is_user_subscribed
         (snd (get_or_create_user st telegram_id username first_name last_name registered))
         telegram_id now = true)
  ∧ (∀ id u,
       get_user_by_telegram_id st telegram_id = Some (id, u) →
       is_user_subscribed st telegram_id now
       = has_active_subscription st id now || (0 <? User.trial_messages_left u)).
Proof.
  split.
  - intros Hnone. unfold is_user_subscribed at 1. rewrite Hnone. split; [done|].
    intros username first_name last_name registered.
    unfold is_user_subscribed, get_or_create_user. rewrite Hnone. simpl.
    unfold get_user_by_telegram_id in *. simpl.
    rewrite (first_row_snoc_hit _ _ _ Hnone); [|done]. simpl. apply orb_true_r.
  - intros id u Hu. unfold is_user_subscribed. by rewrite Hu.
Qed.

Lemma check_matches_raises svc now net e :
  fst (check_matches svc now net) = Raise e → e = TypeError.
Proof.
  unfold check_matches, MatchService.check_for_matches_with_target_odds. cbn [fst].
  destruct (fetch_matches_total svc now net) as [r ->]. simpl.
  destruct (py_iter (MatchService.returned r)) as [items|e'] eqn:Hiter; simpl; [done|].
  intros [= <-]. by eapply py_iter_raises_TypeError.
Qed.

Lemma show_matches_raises m matches :
  show_matches (m :: matches) = Raise AttributeError.
Proof. reflexivity. Qed.

(** X19. When a user on trial runs a search that gets as far as the
    filter, [find_matches] hands the caller's Telegram id to the store's
    [decrement_trial_message], which reads it as a row key: the row
    decremented is the one whose primary key equals the Telegram id.
    Unless the two coincide the caller's own row keeps its count; when
    no row has that key nothing is written and the reply announces 0
    requests left. *)
Theorem find_matches_trial_accounting
    (w : world) (telegram_id checked fetched_at tested : Z) (net : http_outcome)
    (id : Z) (u : User.t) (matches : list pyval) :
  get_user_by_telegram_id (store w) telegram_id = Some (id, u) →
  0 < User.trial_messages_left u →
  has_active_subscription (store w) id tested = false →
  fst (check_matches (service w) fetched_at net) = Ok matches →
  let after_call := snd (find_matches w telegram_id checked fetched_at tested net) in
  let decremented := DatabaseService.decrement_trial_message (store w) telegram_id in
  store after_call = snd decremented
  ∧ SearchDone (Some (fst decremented)) ∈ sent after_call
  ∧ (telegram_id ≠ id → by_id (users (store after_call)) id = Some u)
  ∧ (by_id (users (store w)) telegram_id = None →
       store after_call = store w ∧ SearchDone (Some 0) ∈ sent after_call).
Proof.
  intros Hu Hpos Hinactive Hfound after_call decremented.
  assert (store after_call = snd decremented
          ∧ SearchDone (Some (fst decremented)) ∈ sent after_call) as [Hstore Hsent].
  { subst after_call decremented. unfold find_matches, is_user_subscribed.
    rewrite Hu. revert Hfound.
    change (service (say w Searching)) with (service w).
    destruct (check_matches (service w) fetched_at net) as [found svc].
    cbn [fst]. intros ->.
    rewrite (proj2 (Z.ltb_lt _ _) Hpos), orb_true_r. simpl. rewrite Hu.
    rewrite (proj2 (Z.ltb_lt _ _) Hpos), Hinactive. simpl.
    unfold decrement_trial_message.
    destruct (DatabaseService.decrement_trial_message (store w) telegram_id)
      as [remaining st'].
    destruct matches as [|m rest]; simpl.
    - split; [done|]. apply elem_of_app. left. apply elem_of_app. right. left.
    - split; [done|]. apply elem_of_app. right. left. }
  split; [done|]. split; [done|]. split.
  - intros Hne. rewrite Hstore. subst decremented.
    destruct (get_user_by_telegram_id_row _ _ _ _ Hu) as [Hrow _].
    unfold DatabaseService.decrement_trial_message.
    destruct (by_id (users (store w)) telegram_id) as [other|] eqn:Hother; [|done].
    destruct (0 <? User.trial_messages_left other); [|done]. simpl.
    apply by_id_Some in Hother as [j [-> _]]. rewrite row_id_position.
    by rewrite by_id_insert_other.
  - intros Hnokey. revert Hstore Hsent. subst decremented.
    unfold DatabaseService.decrement_trial_message. rewrite Hnokey. simpl. done.
Qed.

(** X20. [find_matches] ends in one of four ways: the caller is not
    subscribed and gets the "subscription required" text, the store and
    the cache left as they were; the cached payload cannot be iterated
    and [TypeError] is raised after the "searching" text; the filter
    returns nothing and the "no matches" text follows; or the filter
    returns something and [AttributeError] is raised at the first match,
    because [send_match_info] reads attributes a decoded JSON value does
    not have. It never announces that matches were shown. *)
Theorem find_matches_outcomes
    (w : world) (telegram_id checked fetched_at tested : Z) (net : http_outcome) :
  let done := find_matches w telegram_id checked fetched_at tested net in
  (is_user_subscribed (store w) telegram_id checked = false
   ∧ done = (Ok (), say w SubscriptionRequired))
  ∨ (is_user_subscribed (store w) telegram_id checked = true
     ∧ fst (check_matches (service w) fetched_at net) = Raise TypeError
     ∧ fst done = Raise TypeError
     ∧ sent (snd done) = sent w ++ [Searching]
     ∧ store (snd done) = store w)
  ∨ (is_user_subscribed (store w) telegram_id checked = true
     ∧ fst (check_matches (service w) fetched_at net) = Ok []
     ∧ fst done = Ok ()
     ∧ ∃ remaining, sent (snd done) = sent w ++ [Searching; SearchDone remaining; NoMatches])
  ∨ (is_user_subscribed (store w) telegram_id checked = true
     ∧ (∃ m rest, fst (check_matches (service w) fetched_at net) = Ok (m :: rest))
     ∧ fst done = Raise AttributeError
     ∧ ∃ remaining, sent (snd done) = sent w ++ [Searching; SearchDone remaining]).
Proof.
  intros done. subst done. unfold find_matches.
  destruct (is_user_subscribed (store w) telegram_id checked); cbn [negb]; [|by left].
  right. change (service (say w Searching)) with (service w).
  pose proof (check_matches_raises (service w) fetched_at net) as Hraise.
  revert Hraise.
  destruct (check_matches (service w) fetched_at net) as [found svc]. cbn [fst].
  intros Hraise. destruct found as [matches|e].
  - right. simpl.
    assert (∃ on_trial : bool,
              match get_user_by_telegram_id (store w) telegram_id with
              | Some (id, user) =>
                  (0 <? User.trial_messages_left user)
                  && negb (has_active_subscription (store w) id tested)
              | None => false
              end = on_trial) as [on_trial ->] by eauto.
    unfold decrement_trial_message.
    destruct (DatabaseService.decrement_trial_message (store w) telegram_id)
      as [remaining st'].
    destruct on_trial, matches as [|m rest]; simpl.
    + left. split_and!; try done. exists (Some remaining). by rewrite <- !app_assoc.
    + right. split_and!; eauto. exists (Some remaining). by rewrite <- !app_assoc.
    + left. split_and!; try done. exists None. by rewrite <- !app_assoc.
    + right. split_and!; eauto. exists None. by rewrite <- !app_assoc.
  - left.
    rewrite (Hraise e eq_refl). done.
Qed.

End FindMatches.

(** ** Callback data *)

Section Callbacks.
Import Bot.

Lemma starts_with_append (prefix s : string) : starts_with prefix (prefix +:+ s) = true.
Proof.
  induction prefix as [|a prefix IH]; simpl; [done|]. by rewrite Ascii.eqb_refl.
Qed.

Lemma str_replace_go_skip old new (passed s : string) :
  str_replace_go old new (String.length passed) (passed +:+ s)
  = str_replace_go old new 0 s.
Proof.
  induction passed as [|c passed IH]; simpl; [|done].
  by destruct s.
Qed.

Lemma str_replace_go_absent old new (s : string) :
  str_contains old s = false → str_replace_go old new 0 s = s.
Proof.
  induction s as [|c s IH]; simpl; [done|].
  intros [Hhere Hlater]%orb_false_iff. simpl in Hhere. rewrite Hhere.
  by rewrite IH.
Qed.

(** Taking a marker off the front of a text that does not contain it
    gives the text back. *)
Lemma str_replace_strips_prefix (marker s : string) :
  marker ≠ "" → str_contains marker s = false →
  str_replace marker "" (marker +:+ s) = s.
Proof.
  intros Hmarker Habsent. destruct marker as [|a marker]; [done|].
  unfold str_replace.
  change (String a marker +:+ s) with (String a (marker +:+ s)).
  unfold str_replace_go at 1. fold str_replace_go.
  change (String a (marker +:+ s)) with (String a marker +:+ s).
  rewrite starts_with_append. simpl.
  rewrite Nat.sub_0_r, str_replace_go_skip. by apply str_replace_go_absent.
Qed.

(** No hexadecimal digit is the letter h. *)
Lemma hex_digit_not_h (c : Ascii.ascii) :
  hex_digit c = true →
  Ascii.eqb (Ascii.Ascii false false false true false true true false) c = false.
Proof. destruct c as [[] [] [] [] [] [] [] []]; done. Qed.

Lemma hex_id_without_marker (s : string) :
  hex_id s = true → str_contains "check_payment_" s = false.
Proof.
  induction s as [|c s IH]; [done|]. simpl hex_id.
  intros [Hc Hs]%andb_true_iff.
  change (str_contains "check_payment_" (String c s))
    with (starts_with "check_payment_" (String c s) || str_contains "check_payment_" s).
  rewrite (IH Hs), orb_false_r. cbn [starts_with].
  destruct (Ascii.eqb _ c); [|done]. cbn [andb].
  destruct s as [|d s]; [done|]. cbn [hex_id] in Hs. cbn [starts_with].
  apply andb_true_iff in Hs as [Hd _].
  by rewrite (hex_digit_not_h d Hd).
Qed.

(** X21. The "I have paid" button carries the link's id behind the
    marker [check_payment_]. For an id that does not contain the
    marker, and no id of hexadecimal digits does, [button_click] hands
    the callback to [check_payment], which recovers exactly that id. *)
Theorem paid_button_round_trip (unique_id : string) :
  (hex_id unique_id = true → str_contains "check_payment_" unique_id = false)
  ∧ (str_contains "check_payment_" unique_id = false →
     button_click (paid_button unique_id) = Some CheckPayment
     ∧ paid_button_id (paid_button unique_id) = unique_id).
Proof.
  split; [apply hex_id_without_marker|].
  intros Habsent. split; [reflexivity|].
  unfold paid_button_id, paid_button. by apply str_replace_strips_prefix.
Qed.

(** X22. A callback [sub_<type>] whose type does not contain [sub_] is
    handed to [process_subscription_selection], which reads back
    exactly that type; the three tariffs are such types, so their
    buttons select a tariff with a price. *)
Theorem tariff_button_round_trip (subscription_type : string) :
  (PaymentService.tariff subscription_type →
   str_contains "sub_" subscription_type = false)
  ∧ (str_contains "sub_" subscription_type = false →
     button_click ("sub_" +:+ subscription_type) = Some ProcessSubscriptionSelection
     ∧ selected_tariff ("sub_" +:+ subscription_type) = subscription_type).
Proof.
  split.
  - by intros [-> | [-> | ->]].
  - intros Habsent. split; [reflexivity|].
    unfold selected_tariff. by apply str_replace_strips_prefix.
Qed.

End Callbacks.

(** ** Admin mode *)

Section AdminAccess.
Import Bot.
Variable strip : string → string.

Lemma admin_handle_not_admin d u :
  strip "" = "" →
  admin_give_sub d = false → admin_revoke_sub d = false → sub_username d = None →
  admin_handle strip false d u = (d, None).
Proof.
  intros Hstrip Hgive Hrevoke Hname. destruct u as [data|text]; simpl.
  - destruct (button_click data) as [[]|]; try done.
    rewrite Hname. simpl. by rewrite Hstrip.
  - by rewrite Hgive, Hrevoke.
Qed.

(** X23. A user for whom [is_admin] is false, starting with an empty
    [user_data], never changes it and never reaches [get_weekly_stats],
    [admin_create_subscription] or [revoke_subscription], whatever
    buttons are pressed (the callback [admin_give_<type>], which no
    handler guards, included) and whatever texts are sent. *)
Theorem admin_methods_need_admin (updates : list update) :
  strip "" = "" →
  admin_run strip false no_user_data updates = (no_user_data, []).
Proof.
  intros Hstrip. induction updates as [|u rest IH]; simpl; [done|].
  rewrite admin_handle_not_admin by done. by rewrite IH.
Qed.

Lemma admin_handle_keeps_revoke admin d u :
  admin_revoke_sub d = true →
  admin_revoke_sub (fst (admin_handle strip admin d u)) = true.
Proof.
  intros Hrevoke. destruct u as [data|text]; simpl.
  - destruct (button_click data) as [[]|]; try done; try (by destruct admin).
    by destruct (String.eqb _ _).
  - destruct (admin_give_sub d); [done|]. by rewrite Hrevoke.
Qed.

(** X24. Once [admin_revoke_sub] is set it stays set: the only
    statement that clears it follows the call of [revoke_subscription],
    which raises. Every text the admin sends afterwards, unless a gift
    is being entered, ends in that call again. *)
Theorem revoke_mode_never_left (admin : bool) (d : user_data) (updates : list update) :
  admin_revoke_sub d = true →
  admin_revoke_sub (fst (admin_run strip admin d updates)) = true
  ∧ (admin_give_sub d = false →
     ∀ text, snd (admin_handle strip admin d (Text text))
             = Some (CallRevokeSubscription (str_replace "@" "" (strip text)))).
Proof.
  intros Hrevoke. split.
  - revert d Hrevoke. induction updates as [|u rest IH]; intros d Hrevoke; simpl; [done|].
    pose proof (admin_handle_keeps_revoke admin d u Hrevoke) as Hnext.
    destruct (admin_handle strip admin d u) as [d1 call]. simpl in Hnext.
    specialize (IH d1 Hnext). by destruct (admin_run strip admin d1 rest).
  - intros Hgive text. simpl. by rewrite Hgive, Hrevoke.
Qed.

End AdminAccess.

Lemma admin_methods_need_admin_witness :
  Bot.admin_run (λ s, s) false Bot.no_user_data
    [Bot.Callback "admin_give_sub"; Bot.Text "alice"; Bot.Callback "admin_give_week";
     Bot.Callback "admin_revoke_sub"; Bot.Text "@alice"; Bot.Callback "admin_stats"]
  = (Bot.no_user_data, []).
Proof.
  apply (admin_methods_need_admin (λ s, s)
           [Bot.Callback "admin_give_sub"; Bot.Text "alice"; Bot.Callback "admin_give_week";
            Bot.Callback "admin_revoke_sub"; Bot.Text "@alice"; Bot.Callback "admin_stats"]).
  reflexivity.
Defined.

Lemma revoke_mode_never_left_witness :
  let d := fst (Bot.admin_handle (λ s, s) true Bot.no_user_data
                  (Bot.Callback "admin_revoke_sub")) in
  let updates := [Bot.Text "@alice"; Bot.Callback "admin_panel"; Bot.Text "bob"] in
  Bot.admin_revoke_sub (fst (Bot.admin_run (λ s, s) true d updates)) = true
  ∧ (Bot.admin_give_sub d = false →
     ∀ text, snd (Bot.admin_handle (λ s, s) true d (Bot.Text text))
             = Some (Bot.CallRevokeSubscription (Bot.str_replace "@" "" text))).
Proof.
  intros d updates.
  apply (revoke_mode_never_left (λ s, s) true d updates).
  reflexivity.
Defined.

(** ** The hypotheses above, met on the scenarios *)

Section Witnesses.
Import MatchService DatabaseService PaymentService Bot.

#[local] Existing Instance Scenario.builtins.

Lemma donation_for_created_link_witness :
  ∃ id payment_link,
    get_payment_link
      (set_payment_links empty
         [{| PaymentLink.telegram_user_id := 4242; PaymentLink.unique_id := "abc123";
             PaymentLink.subscription_type := "week"; PaymentLink.amount := 650 # 1;
             PaymentLink.created_at := 0; PaymentLink.paid := false |}])
      "abc123" = Some (id, payment_link)
    ∧ PaymentLink.paid payment_link = false
    ∧ ∀ donation message,
        py_get donation "message" (PStr "") = Ok message →
        is_substring "abc123" (py_str message) →
        (find_donation payment_link [donation] = Some donation
         ↔ ∃ v paid,
             py_get donation "amount" (PNum 0) = Ok v
             ∧ py_float v = Ok paid
             ∧ (inject_Z 650 <= paid)%Q)
        ∧ (∀ amount paid,
             py_get donation "amount" (PNum 0) = Ok (PNum amount) →
             py_float (PNum amount) = Ok paid →
             (find_donation payment_link [donation] = Some donation
              ↔ (inject_Z 650 <= amount)%Q)).
Proof.
  apply (donation_for_created_link
           {| donation_alerts := {| DonationAlertsClient.api_key := Some "token" |};
              base_url := "https://www.donationalerts.com/r/oddfury";
              db_service := true |}
           empty _ 4242 "week" "abc123" 0
           {| PaymentInfo.unique_id := "abc123";
              PaymentInfo.payment_url :=
                "https://www.donationalerts.com/r/oddfury?message=abc123&amount=650";
              PaymentInfo.amount := 650;
              PaymentInfo.subscription_type := "week";
              PaymentInfo.discount := 0 |}).
  vm_compute. reflexivity.
Defined.

Lemma check_payment_fails_or_raises_witness :
  (∃ why,
     check_payment
       {| donation_alerts := {| DonationAlertsClient.api_key := Some "token" |};
          base_url := "https://www.donationalerts.com/r/oddfury"; db_service := true |}
       (set_payment_links empty [Scenario.scenario_link]) "abc123"
       (Response 200 (Some (PDict [("data", PList [Scenario.scenario_donation "abc123" (700 # 1)])])))
       0
     = Ok (Failure why, set_payment_links empty [Scenario.scenario_link]))
  ∨ check_payment
      {| donation_alerts := {| DonationAlertsClient.api_key := Some "token" |};
         base_url := "https://www.donationalerts.com/r/oddfury"; db_service := true |}
      (set_payment_links empty [Scenario.scenario_link]) "abc123"
      (Response 200 (Some (PDict [("data", PList [Scenario.scenario_donation "abc123" (700 # 1)])])))
      0
    = Raise TypeError.
Proof.
  apply (check_payment_fails_or_raises
           {| donation_alerts := {| DonationAlertsClient.api_key := Some "token" |};
              base_url := "https://www.donationalerts.com/r/oddfury"; db_service := true |}
           (set_payment_links empty [Scenario.scenario_link]) "abc123"
           (Response 200 (Some (PDict [("data", PList [Scenario.scenario_donation "abc123" (700 # 1)])])))
           0).
  reflexivity.
Defined.

Lemma check_payment_raises_iff_witness :
  check_payment
    {| donation_alerts := {| DonationAlertsClient.api_key := Some "token" |};
       base_url := "https://www.donationalerts.com/r/oddfury"; db_service := true |}
    (set_payment_links empty [Scenario.scenario_link]) "abc123"
    (Response 200 (Some (PDict [("data", PNone)]))) 0
  = Raise TypeError
  ↔ match py_iter PNone with
    | Raise _ => True
    | Ok donations => ∃ d, d ∈ donations ∧ meets_link Scenario.scenario_link d
    end.
Proof.
  apply (check_payment_raises_iff
           {| donation_alerts := {| DonationAlertsClient.api_key := Some "token" |};
              base_url := "https://www.donationalerts.com/r/oddfury"; db_service := true |}
           (set_payment_links empty [Scenario.scenario_link]) "abc123"
           (Response 200 (Some (PDict [("data", PNone)]))) 0 1
           Scenario.scenario_link PNone);
    first [reflexivity | discriminate].
Defined.

Lemma records_without_odds_witness :
  let record :=
    PDict [("id", PStr "e912304de2b2ce35b473ce2ecd3d1502");
           ("home_team", PStr "Arsenal"); ("away_team", PStr "Chelsea");
           ("bookmakers", PList [])] in
  filter_matches default_min_odds default_max_odds [record; PStr "x"] = []
  ∧ ∀ min_odds max_odds kvs,
      PDict kvs ∈ [record; PStr "x"] →
      kept min_odds max_odds (PDict kvs) = Qle_bool min_odds 0 && Qle_bool 0 max_odds.
Proof.
  intros record.
  apply (records_without_odds [record; PStr "x"]).
  constructor; [by intros kvs [= <-]|].
  constructor; [by intros kvs [=]|]. constructor.
Defined.

Lemma scalar_answer_poisons_cache_witness :
  check_for_matches_with_target_odds (init Scenario.client 600) 0
    (Response 200 (Some (PNum (42 # 1)))) default_min_odds default_max_odds
  = Raise TypeError
  ∧ ∃ r, fetch_matches (init Scenario.client 600) 0 (Response 200 (Some (PNum (42 # 1))))
         = Ok r
         ∧ check_for_matches_with_target_odds (after r) (seconds 599)
             (Response 200 (Some Scenario.one_match)) default_min_odds default_max_odds
           = Raise TypeError.
Proof.
  apply (scalar_answer_poisons_cache (init Scenario.client 600) 0 (seconds 599)
           (Response 200 (Some (PNum (42 # 1)))) (Response 200 (Some Scenario.one_match))
           (PNum (42 # 1)) default_min_odds default_max_odds);
    reflexivity.
Defined.

Lemma find_matches_trial_accounting_witness :
  let w := {| store := snd Scenario.lifecycle_user;
              service := init Scenario.client 600;
              sent := [] |} in
  let after_call := snd (find_matches w 4242 0 0 0 (Response 200 (Some (PList [])))) in
  let decremented := DatabaseService.decrement_trial_message (store w) 4242 in
  store after_call = snd decremented
  ∧ SearchDone (Some (fst decremented)) ∈ sent after_call
  ∧ (4242 ≠ 1 → by_id (users (store after_call)) 1
                = Some (snd (fst Scenario.lifecycle_user)))
  ∧ (by_id (users (store w)) 4242 = None →
       store after_call = store w ∧ SearchDone (Some 0) ∈ sent after_call).
Proof.
  intros w.
  apply (find_matches_trial_accounting w 4242 0 0 0 (Response 200 (Some (PList [])))
           1 (snd (fst Scenario.lifecycle_user)) []).
  - reflexivity.
  - reflexivity.
  - reflexivity.
  - reflexivity.
Defined.

End Witnesses.
